(** * The mllama text decoder (model/mllama/model_text.go)

    A shallow embedding of the forward computation of the vision-language
    text decoder: self-attention and cross-attention units, the gated
    feed-forward unit, the two decoder layer variants, the decoder's layer
    dispatch, the text model and its construction from a configuration.

    Tensor operations and the key/value cache are consumed through abstract
    interfaces, as in the source (packages [ml], [nn] and [model]); the
    cache store is threaded through every forward function, together with a
    log of the cache calls made.  A Go run-time panic (integer division by
    zero, a method call on a nil pointer or nil interface value) is an
    explicit outcome.  Tensor operations are total: a failure raised inside
    the backend, such as a shape mismatch, is not part of the embedding. *)

From Stdlib Require Import ZArith List Floats.
From stdpp Require Import gmap list strings.

Local Open Scope Z_scope.

(** ** Go scalars *)

(** Two's complement wrap-around of a 64-bit signed integer. *)
Definition wrap64 (z : Z) : Z := (z + 2 ^ 63) `mod` 2 ^ 64 - 2 ^ 63.

(** The conversion [uint32(i)] of an [int]. *)
Definition uint32 (z : Z) : Z := z `mod` 2 ^ 32.

(** The conversion [int64(u)] of a [uint32]. *)
Definition int64 (u : Z) : Z := wrap64 u.

(** [a * b] on [int64]. *)
Definition mul64 (a b : Z) : Z := wrap64 (a * b).

(** [a / b] on [int64]: truncated towards zero, a run-time panic when the
    divisor is zero ([None]); the one overflowing quotient wraps. *)
Definition div64 (a b : Z) : option Z :=
  if b =? 0 then None else Some (wrap64 (a ÷ b)).

(** The conversion [float64(n)] of an [int64], rounding to nearest. *)
Definition float64 (n : Z) : float :=
  if n =? - 2 ^ 63 then (- 0x1p63)%float
  else if n <? 0 then (- PrimFloat.of_uint63 (Uint63.of_Z (- n)))%float
  else PrimFloat.of_uint63 (Uint63.of_Z n).

(** [slices.Contains(s, v)]. *)
Definition slices_Contains (s : list Z) (v : Z) : bool :=
  existsb (Z.eqb v) s.

(** ** Outcomes and the forward monad *)

(** What a Go call does: it returns, or it panics. *)
Inductive outcome (A : Type) : Type :=
| Returned (a : A)
| Panicked.
Arguments Returned {A} a.
Arguments Panicked {A}.

(** A computation over a store [St] that may panic. *)
Definition M (St A : Type) : Type := St -> outcome (A * St).

Definition ret {St A} (a : A) : M St A := fun st => Returned (a, st).

Definition bind {St A B} (m : M St A) (k : A -> M St B) : M St B :=
  fun st =>
    match m st with
    | Returned (a, st') => k a st'
    | Panicked => Panicked
    end.

Definition panic {St A} : M St A := fun _ => Panicked.

(** Dereferencing a pointer, or calling a method on an interface value:
    a panic when it is nil. *)
Definition deref {St A} (p : option A) : M St A :=
  match p with
  | Some a => ret a
  | None => panic
  end.

(** The test [p != nil]. *)
Definition not_nil {A} (p : option A) : bool :=
  match p with
  | Some _ => true
  | None => false
  end.

Notation "x <- m ;; k" := (bind m (fun x => k))
  (at level 100, m at next level, right associativity).

(** ** The tensor backend (package ml and package nn) *)

(** The operations [model_text.go] calls on [ml.Tensor] values, and the
    [Forward] methods of the [nn] building blocks it holds.  The receiver
    comes first, then the computation context, as in the source.  Every
    operation returns a new tensor handle. *)
Class Backend (Ctx Tensor Linear RMSNorm Embedding : Type) : Type := {
  Dim : Tensor -> Z -> Z;
  Reshape : Tensor -> Ctx -> list Z -> Tensor;
  Permute : Tensor -> Ctx -> list Z -> Tensor;
  Contiguous : Tensor -> Ctx -> Tensor;
  Mulmat : Tensor -> Ctx -> Tensor -> Tensor;
  Scale : Tensor -> Ctx -> float -> Tensor;
  Add : Tensor -> Ctx -> Tensor -> Tensor;
  Mul : Tensor -> Ctx -> Tensor -> Tensor;
  Softmax : Tensor -> Ctx -> Tensor;
  SILU : Tensor -> Ctx -> Tensor;
  Tanh : Tensor -> Ctx -> Tensor;
  Rope : Tensor -> Ctx -> Tensor -> option Tensor -> Z -> float -> float -> Tensor;
  Linear_apply : Linear -> Ctx -> Tensor -> Tensor;
  RMSNorm_apply : RMSNorm -> Ctx -> Tensor -> float -> Tensor;
  Embedding_apply : Embedding -> Ctx -> Tensor -> Tensor
}.

(** ** The cache (package model)

    The methods [model_text.go] calls on a [model.Cache] handle, over a
    store the handles point into, and the handle's embedded options. *)
Class CacheBackend (Ctx Tensor Cache CacheOptions Store : Type) : Type := {
  Options : Cache -> CacheOptions;
  Sub : Cache -> nat -> Store -> outcome (Cache * Store);
  Put : Cache -> Ctx -> Tensor -> Tensor -> CacheOptions -> Store ->
        outcome ((Tensor * Tensor) * Store)
}.

Section Model.

Context {Ctx Tensor Linear RMSNorm Embedding : Type}.
Context {B : Backend Ctx Tensor Linear RMSNorm Embedding}.
Context {Cache CacheOptions Store : Type}.
Context {C : CacheBackend Ctx Tensor Cache CacheOptions Store}.

(** The calls made on cache handles, in order. *)
Inductive CacheCall : Type :=
| CallSub (c : Cache) (i : nat)
| CallPut (c : Cache) (key value : Tensor) (o : CacheOptions).

(** What a forward call threads: the cache store and the log of calls. *)
Record FwdState : Type := {
  store : Store;
  calls : list CacheCall
}.

(** The [Sub] calls of a log: handle and index, in order. *)
Definition Sub_calls (cs : list CacheCall) : list (Cache * nat) :=
  omap (fun e =>
          match e with
          | CallSub c i => Some (c, i)
          | CallPut _ _ _ _ => None
          end) cs.

(** The forward monad of the text model. *)
Definition Fwd (A : Type) : Type := M FwdState A.

(** The call [cache.Sub(i)], logged. *)
Definition Cache_Sub (c : Cache) (i : nat) : Fwd Cache :=
  fun st =>
    match Sub c i (store st) with
    | Returned (sub, store') =>
        Returned (sub, {| store := store';
                          calls := calls st ++ [CallSub c i] |})
    | Panicked => Panicked
    end.

(** The call [cache.Put(ctx, key, value, o)], logged. *)
Definition Cache_Put (c : Cache) (ctx : Ctx) (key value : Tensor)
    (o : CacheOptions) : Fwd (Tensor * Tensor) :=
  fun st =>
    match Put c ctx key value o (store st) with
    | Returned (kv, store') =>
        Returned (kv, {| store := store';
                         calls := calls st ++ [CallPut c key value o] |})
    | Panicked => Panicked
    end.

(** The [Forward] methods of [nn.Linear], [nn.RMSNorm] and [nn.Embedding]
    on a pointer the weight loader may have left nil. *)
Definition nn_Linear_Forward (m : option Linear) (ctx : Ctx) (t : Tensor)
    : Fwd Tensor :=
  l <- deref m ;; ret (Linear_apply l ctx t).

Definition nn_RMSNorm_Forward (m : option RMSNorm) (ctx : Ctx) (t : Tensor)
    (eps : float) : Fwd Tensor :=
  n <- deref m ;; ret (RMSNorm_apply n ctx t eps).

Definition nn_Embedding_Forward (m : option Embedding) (ctx : Ctx)
    (t : Tensor) : Fwd Tensor :=
  e <- deref m ;; ret (Embedding_apply e ctx t).

(** ** model_text.go

    Struct fields keep their Go names, with the struct's initials in front
    where two structs share a field name; a pointer field the weight loader
    fills is an [option], nil until then.  The embedded options of a
    [TextModel] are its field [Opts]. *)

Record TextModelOptions : Type := {
  RopeFactors : option Tensor;
  hiddenSize : Z;
  numHeads : Z;
  numKVHeads : Z;
  eps : float;
  ropeBase : float;
  ropeScale : float;
  ropeDim : Z;
  crossAttentionLayers : list Z
}.

Record TextSelfAttention : Type := {
  sa_Query : option Linear;
  sa_Key : option Linear;
  sa_Value : option Linear;
  sa_Output : option Linear
}.

Definition TextSelfAttention_Forward (sa : TextSelfAttention) (ctx : Ctx)
    (hiddenState positions : Tensor) (mask : option Tensor) (cache : Cache)
    (opts : TextModelOptions) : Fwd Tensor :=
  let batchSize := Dim hiddenState 1 in
  headDim <- deref (div64 (hiddenSize opts) (numHeads opts)) ;;

  query <- nn_Linear_Forward (sa_Query sa) ctx hiddenState ;;
  let query := Reshape query ctx [headDim; numHeads opts; batchSize] in
  let query := Rope query ctx positions (RopeFactors opts) (ropeDim opts)
                 (ropeBase opts) (ropeScale opts) in

  key <- nn_Linear_Forward (sa_Key sa) ctx hiddenState ;;
  let key := Reshape key ctx [headDim; numKVHeads opts; batchSize] in
  let key := Rope key ctx positions (RopeFactors opts) (ropeDim opts)
               (ropeBase opts) (ropeScale opts) in

  value <- nn_Linear_Forward (sa_Value sa) ctx hiddenState ;;
  let value := Reshape value ctx [headDim; numKVHeads opts; batchSize] in

  kv <- Cache_Put cache ctx key value (Options cache) ;;
  let '(key, value) := kv in

  let query := Contiguous (Permute query ctx [0; 2; 1; 3]) ctx in
  let key := Contiguous (Permute key ctx [0; 2; 1; 3]) ctx in
  let value := Contiguous (Permute value ctx [1; 2; 0; 3]) ctx in

  let scores := Mulmat key ctx query in
  let scores := Scale scores ctx (1 / PrimFloat.sqrt (float64 headDim))%float in

  let scores :=
    match mask with
    | Some mask => Add scores ctx mask
    | None => scores
    end in

  let scores := Softmax scores ctx in

  let attention := Mulmat value ctx scores in
  let attention := Contiguous (Permute attention ctx [0; 2; 1; 3]) ctx in
  let attention := Reshape attention ctx [hiddenSize opts; batchSize] in

  nn_Linear_Forward (sa_Output sa) ctx attention.

Record TextMLP : Type := {
  Up : option Linear;
  Down : option Linear;
  Gate : option Linear
}.

Definition TextMLP_Forward (mlp : TextMLP) (ctx : Ctx) (hiddenState : Tensor)
    (opts : TextModelOptions) : Fwd Tensor :=
  gate <- nn_Linear_Forward (Gate mlp) ctx hiddenState ;;
  up <- nn_Linear_Forward (Up mlp) ctx hiddenState ;;
  let hiddenState := Mul (SILU gate ctx) ctx up in
  nn_Linear_Forward (Down mlp) ctx hiddenState.

Record TextSelfAttentionDecoderLayer : Type := {
  sl_AttentionNorm : option RMSNorm;
  sl_SelfAttention : option TextSelfAttention;
  sl_MLPNorm : option RMSNorm;
  sl_MLP : option TextMLP
}.

Definition TextSelfAttentionDecoderLayer_Forward
    (d : TextSelfAttentionDecoderLayer) (ctx : Ctx)
    (hiddenState positions : Tensor) (mask _a _b : option Tensor)
    (cache : Cache) (opts : TextModelOptions) : Fwd Tensor :=
  let residual := hiddenState in

  hiddenState <- nn_RMSNorm_Forward (sl_AttentionNorm d) ctx hiddenState (eps opts) ;;
  sa <- deref (sl_SelfAttention d) ;;
  hiddenState <- TextSelfAttention_Forward sa ctx hiddenState positions mask cache opts ;;
  let hiddenState := Add hiddenState ctx residual in
  let residual := hiddenState in

  hiddenState <- nn_RMSNorm_Forward (sl_MLPNorm d) ctx hiddenState (eps opts) ;;
  mlp <- deref (sl_MLP d) ;;
  hiddenState <- TextMLP_Forward mlp ctx hiddenState opts ;;
  ret (Add hiddenState ctx residual).

Record TextCrossAttention : Type := {
  ca_QueryNorm : option RMSNorm;
  ca_Query : option Linear;
  ca_KeyNorm : option RMSNorm;
  ca_Key : option Linear;
  ca_Value : option Linear;
  ca_Output : option Linear
}.

Definition TextCrossAttention_Forward (ca : TextCrossAttention) (ctx : Ctx)
    (hiddenState : Tensor) (crossAttentionStates : option Tensor)
    (cache : Cache) (opts : TextModelOptions) : Fwd Tensor :=
  let batchSize := Dim hiddenState 1 in
  headDim <- deref (div64 (hiddenSize opts) (numHeads opts)) ;;
  crossAttentionStates <- deref crossAttentionStates ;;
  let numVisionTokens := Dim crossAttentionStates 1 in
  let numTiles := Dim crossAttentionStates 2 in

  query <- nn_Linear_Forward (ca_Query ca) ctx hiddenState ;;
  let query := Reshape query ctx [headDim; numHeads opts; batchSize] in
  query <- nn_RMSNorm_Forward (ca_QueryNorm ca) ctx query (eps opts) ;;

  key <- nn_Linear_Forward (ca_Key ca) ctx crossAttentionStates ;;
  let key := Reshape key ctx
               [headDim; numKVHeads opts; mul64 numVisionTokens numTiles] in
  key <- nn_RMSNorm_Forward (ca_KeyNorm ca) ctx key (eps opts) ;;

  value <- nn_Linear_Forward (ca_Value ca) ctx crossAttentionStates ;;
  let value := Reshape value ctx
                 [headDim; numKVHeads opts; mul64 numVisionTokens numTiles] in

  let query := Contiguous (Permute query ctx [0; 2; 1; 3]) ctx in
  let key := Contiguous (Permute key ctx [0; 2; 1; 3]) ctx in
  let value := Contiguous (Permute value ctx [1; 2; 0; 3]) ctx in

  let scores := Mulmat key ctx query in
  let scores := Scale scores ctx (1 / PrimFloat.sqrt (float64 headDim))%float in
  let scores := Softmax scores ctx in

  let attention := Mulmat value ctx scores in
  let attention := Contiguous (Permute attention ctx [0; 2; 1; 3]) ctx in
  let attention := Reshape attention ctx [hiddenSize opts; batchSize] in

  nn_Linear_Forward (ca_Output ca) ctx attention.

Record TextCrossAttentionDecoderLayer : Type := {
  cl_AttentionNorm : option RMSNorm;
  cl_CrossAttention : option TextCrossAttention;
  cl_AttentionGate : option Tensor;
  cl_MLPNorm : option RMSNorm;
  cl_MLP : option TextMLP;
  cl_MLPGate : option Tensor
}.

Definition TextCrossAttentionDecoderLayer_Forward
    (d : TextCrossAttentionDecoderLayer) (ctx : Ctx) (hiddenState : Tensor)
    (_a : Tensor) (_b crossAttentionStates crossAttentionMask : option Tensor)
    (cache : Cache) (opts : TextModelOptions) : Fwd Tensor :=
  let residual := hiddenState in

  hiddenState <- nn_RMSNorm_Forward (cl_AttentionNorm d) ctx hiddenState (eps opts) ;;
  ca <- deref (cl_CrossAttention d) ;;
  hiddenState <- TextCrossAttention_Forward ca ctx hiddenState crossAttentionStates cache opts ;;
  gate <- deref (cl_AttentionGate d) ;;
  let hiddenState := Mul hiddenState ctx (Tanh gate ctx) in
  let hiddenState := Add hiddenState ctx residual in
  let residual := hiddenState in

  hiddenState <- nn_RMSNorm_Forward (cl_MLPNorm d) ctx hiddenState (eps opts) ;;
  mlp <- deref (cl_MLP d) ;;
  hiddenState <- TextMLP_Forward mlp ctx hiddenState opts ;;
  gate <- deref (cl_MLPGate d) ;;
  let hiddenState := Mul hiddenState ctx (Tanh gate ctx) in
  ret (Add hiddenState ctx residual).

(** The interface [TextDecoderLayer] and its two implementations. *)
Inductive TextDecoderLayer : Type :=
| SelfAttentionDecoderLayer (d : TextSelfAttentionDecoderLayer)
| CrossAttentionDecoderLayer (d : TextCrossAttentionDecoderLayer).

Definition TextDecoderLayer_Forward (layer : TextDecoderLayer) (ctx : Ctx)
    (hiddenState positionIDs : Tensor)
    (mask crossAttentionStates crossAttentionMask : option Tensor)
    (cache : Cache) (opts : TextModelOptions) : Fwd Tensor :=
  match layer with
  | SelfAttentionDecoderLayer d =>
      TextSelfAttentionDecoderLayer_Forward d ctx hiddenState positionIDs mask
        crossAttentionStates crossAttentionMask cache opts
  | CrossAttentionDecoderLayer d =>
      TextCrossAttentionDecoderLayer_Forward d ctx hiddenState positionIDs mask
        crossAttentionStates crossAttentionMask cache opts
  end.

Definition is_cross_attention_layer (layer : TextDecoderLayer) : bool :=
  match layer with
  | SelfAttentionDecoderLayer _ => false
  | CrossAttentionDecoderLayer _ => true
  end.

Record TextDecoder : Type := {
  Layers : list TextDecoderLayer
}.

(** The guard of the decoder's loop at index [i]. *)
Definition TextDecoder_runs (crossAttentionStates : option Tensor)
    (opts : TextModelOptions) (i : nat) : bool :=
  negb (slices_Contains (crossAttentionLayers opts) (uint32 (Z.of_nat i)))
  || not_nil crossAttentionStates.

(** One iteration of the decoder's loop, at index [i]. *)
Definition TextDecoder_iteration (ctx : Ctx) (positionIDs : Tensor)
    (mask crossAttentionStates crossAttentionMask : option Tensor)
    (cache : Cache) (opts : TextModelOptions)
    (i : nat) (layer : TextDecoderLayer) (hiddenState : Tensor) : Fwd Tensor :=
  if TextDecoder_runs crossAttentionStates opts i then
    sub <- Cache_Sub cache i ;;
    TextDecoderLayer_Forward layer ctx hiddenState positionIDs mask
      crossAttentionStates crossAttentionMask sub opts
  else ret hiddenState.

(** The loop [for i, layer := range d.Layers], from index [i] on. *)
Fixpoint TextDecoder_loop (ctx : Ctx) (positionIDs : Tensor)
    (mask crossAttentionStates crossAttentionMask : option Tensor)
    (cache : Cache) (opts : TextModelOptions)
    (layers : list TextDecoderLayer) (i : nat) (hiddenState : Tensor)
    : Fwd Tensor :=
  match layers with
  | [] => ret hiddenState
  | layer :: layers =>
      hiddenState <- TextDecoder_iteration ctx positionIDs mask
                       crossAttentionStates crossAttentionMask cache opts
                       i layer hiddenState ;;
      TextDecoder_loop ctx positionIDs mask crossAttentionStates
        crossAttentionMask cache opts layers (S i) hiddenState
  end.

Definition TextDecoder_Forward (d : TextDecoder) (ctx : Ctx)
    (hiddenState positionIDs : Tensor)
    (mask crossAttentionStates crossAttentionMask : option Tensor)
    (cache : Cache) (opts : TextModelOptions) : Fwd Tensor :=
  TextDecoder_loop ctx positionIDs mask crossAttentionStates
    crossAttentionMask cache opts (Layers d) 0%nat hiddenState.

Record TextModel : Type := {
  TokenEmbedding : option Embedding;
  Transformer : TextDecoder;
  OutputNorm : option RMSNorm;
  Output : option Linear;
  Opts : TextModelOptions
}.

Definition TextModel_Forward (m : TextModel) (ctx : Ctx)
    (inputIDs positionIDs : Tensor)
    (mask crossAttentionStates crossAttentionMask : option Tensor)
    (cache : Cache) : Fwd Tensor :=
  hiddenState <- nn_Embedding_Forward (TokenEmbedding m) ctx inputIDs ;;
  hiddenState <- TextDecoder_Forward (Transformer m) ctx hiddenState
                   positionIDs mask crossAttentionStates crossAttentionMask
                   cache (Opts m) ;;
  hiddenState <- nn_RMSNorm_Forward (OutputNorm m) ctx hiddenState (eps (Opts m)) ;;
  nn_Linear_Forward (Output m) ctx hiddenState.

(** The interface [ml.Config], as far as [newTextModel] reads it: each
    getter takes the key and the optional default values. *)
Record Config : Type := {
  Uint : string -> list Z -> Z;
  Uints : string -> list (list Z) -> list Z;
  Float : string -> list float -> float
}.

(** The layer [newTextModel] appends at index [i]: an empty struct of the
    kind the configured index list selects. *)
Definition newTextModel_layer (c : Config) (i : Z) : TextDecoderLayer :=
  if slices_Contains (Uints c "attention.cross_attention_layers" []) i then
    CrossAttentionDecoderLayer
      {| cl_AttentionNorm := None; cl_CrossAttention := None;
         cl_AttentionGate := None; cl_MLPNorm := None; cl_MLP := None;
         cl_MLPGate := None |}
  else
    SelfAttentionDecoderLayer
      {| sl_AttentionNorm := None; sl_SelfAttention := None;
         sl_MLPNorm := None; sl_MLP := None |}.

Definition newTextModel (c : Config) : TextModel :=
  let decoderLayers :=
    fold_left (fun decoderLayers i => decoderLayers ++ [newTextModel_layer c i])
      (seqZ 0 (Uint c "block_count" [])) [] in
  {| TokenEmbedding := None;
     Transformer := {| Layers := decoderLayers |};
     OutputNorm := None;
     Output := None;
     Opts :=
       {| RopeFactors := None;
          hiddenSize := int64 (Uint c "embedding_length" []);
          numHeads := int64 (Uint c "attention.head_count" []);
          numKVHeads := int64 (Uint c "attention.head_count_kv" []);
          eps := Float c "attention.layer_norm_rms_epsilon" [];
          ropeBase := Float c "rope.freq_base" [];
          ropeScale := Float c "rope.freq_scale" [1%float];
          ropeDim := Uint c "rope.dimension_count" [];
          crossAttentionLayers := Uints c "attention.cross_attention_layers" [] |} |}.

End Model.

Arguments CacheCall : clear implicits.
Arguments FwdState : clear implicits.
Arguments TextModelOptions : clear implicits.
Arguments TextSelfAttention : clear implicits.
Arguments TextMLP : clear implicits.
Arguments TextSelfAttentionDecoderLayer : clear implicits.
Arguments TextCrossAttention : clear implicits.
Arguments TextCrossAttentionDecoderLayer : clear implicits.
Arguments TextDecoderLayer : clear implicits.
Arguments TextDecoder : clear implicits.
Arguments TextModel : clear implicits.

(** ** The cache of the spec *)
Module SpecCache.
Section SpecCache.

Context {Ctx Tensor CacheOptions : Type}.

(** The tensor that holds the given per-step tensors, oldest first, along
    the position axis. *)
Variable view : Ctx -> list Tensor -> Tensor.

(** A cache handle: the slice it addresses, as the path of [Sub] indices
    from the root cache, and the options it carries. *)
Record handle : Type := {
  slice : list nat;
  options : CacheOptions
}.

(** Modelled from the spec: [model.Cache.Sub] is not among the sources;
    [Sub(layerIndex)] yields the cache slice owned by that layer. *)
Definition sub (c : handle) (i : nat)
    (st : gmap (list nat) (list (Tensor * Tensor)))
    : outcome (handle * gmap (list nat) (list (Tensor * Tensor))) :=
  Returned ({| slice := slice c ++ [i]; options := options c |}, st).

(** Modelled from the spec: [model.Cache.Put] is not among the sources;
    each slice holds accumulated key/value tensors for prior positions, and
    [Put(scope, key, value, options)] appends the given key/value for the
    current positions and returns the full accumulated key/value tensors
    (prior + new). *)
Definition put (c : handle) (ctx : Ctx) (key value : Tensor)
    (o : CacheOptions) (st : gmap (list nat) (list (Tensor * Tensor)))
    : outcome ((Tensor * Tensor) * gmap (list nat) (list (Tensor * Tensor))) :=
  let hist := default [] (st !! slice c) ++ [(key, value)] in
  Returned ((view ctx (hist.*1), view ctx (hist.*2)), <[slice c := hist]> st).

#[export] Instance impl
    : CacheBackend Ctx Tensor handle CacheOptions
        (gmap (list nat) (list (Tensor * Tensor))) :=
  {| Options := options; Sub := sub; Put := put |}.

End SpecCache.

Arguments handle : clear implicits.

End SpecCache.

(** ** A symbolic backend: the computation graph

    Each operation builds a node, as the ggml backend does before a graph is
    computed.  Shapes follow ggml's conventions (four axes, axis 0 first,
    unused axes of size 1); they matter to [Dim] only. *)
Module Graph.

#[local] Set Warnings "-register-all".

Inductive Node : Type :=
| NInput (name : string) (shape : list Z)
| NReshape (t : Node) (shape : list Z)
| NPermute (t : Node) (axes : list Z)
| NContiguous (t : Node)
| NMulmat (a b : Node)
| NScale (t : Node) (s : float)
| NAdd (a b : Node)
| NMul (a b : Node)
| NSoftmax (t : Node)
| NSILU (t : Node)
| NTanh (t : Node)
| NRope (t positions : Node) (factors : option Node) (dim : Z)
    (base scale : float)
| NLinear (weight : string * Z) (t : Node)
| NRMSNorm (weight : string) (t : Node) (eps : float)
| NEmbedding (weight : string * Z) (t : Node)
| NCacheView (ts : list Node).

(** Size of axis [n] of a shape. *)
Definition ne (shape : list Z) (n : nat) : Z := nth n shape 1.

(** The axis of [axes] that is sent to axis [j], if any. *)
Definition source_axis (axes : list Z) (j : nat) : nat :=
  match list_find (Z.eqb (Z.of_nat j)) axes with
  | Some (i, _) => i
  | None => j
  end.

Fixpoint shape (t : Node) : list Z :=
  match t with
  | NInput _ sh | NReshape _ sh => sh
  | NPermute t axes =>
      let sh := shape t in
      map (fun j => ne sh (source_axis axes j)) [0; 1; 2; 3]%nat
  | NContiguous t | NScale t _ | NSoftmax t | NSILU t | NTanh t
  | NRope t _ _ _ _ _ | NRMSNorm _ t _ => shape t
  | NAdd a _ | NMul a _ => shape a
  | NMulmat a b =>
      [ne (shape a) 1; ne (shape b) 1; ne (shape b) 2; ne (shape b) 3]
  | NLinear (_, out) t =>
      [out; ne (shape t) 1; ne (shape t) 2; ne (shape t) 3]
  | NEmbedding (_, width) t => [width; ne (shape t) 0]
  | NCacheView ts =>
      let shs := map shape ts in
      [ne (hd [] shs) 0; ne (hd [] shs) 1;
       fold_right (fun sh n => ne sh 2 + n) 0 shs]
  end.

#[export] Instance backend : Backend unit Node (string * Z) string (string * Z) := {|
  Dim := fun t n => ne (shape t) (Z.to_nat n);
  Reshape := fun t _ sh => NReshape t sh;
  Permute := fun t _ axes => NPermute t axes;
  Contiguous := fun t _ => NContiguous t;
  Mulmat := fun t _ t2 => NMulmat t t2;
  Scale := fun t _ s => NScale t s;
  Add := fun t _ t2 => NAdd t t2;
  Mul := fun t _ t2 => NMul t t2;
  Softmax := fun t _ => NSoftmax t;
  SILU := fun t _ => NSILU t;
  Tanh := fun t _ => NTanh t;
  Rope := fun t _ positions factors dim base scale =>
            NRope t positions factors dim base scale;
  Linear_apply := fun w _ t => NLinear w t;
  RMSNorm_apply := fun w _ t eps => NRMSNorm w t eps;
  Embedding_apply := fun w _ t => NEmbedding w t
|}.

(** The cache of the spec over graph nodes; a handle's options are the
    current position. *)
#[export] Instance cache
    : CacheBackend unit Node (SpecCache.handle Z) Z
        (gmap (list nat) (list (Node * Node))) :=
  SpecCache.impl (fun _ ts => NCacheView ts).

Abbreviation State :=
  (FwdState Node (SpecCache.handle Z) Z (gmap (list nat) (list (Node * Node)))).

(** An empty store with an empty log, and the root handle. *)
Definition empty_state : State := {| store := ∅; calls := [] |}.

Definition root (position : Z) : SpecCache.handle Z :=
  {| SpecCache.slice := []; SpecCache.options := position |}.

End Graph.

(** ** A numeric backend: one-element tensors of binary64 numbers

    Every tensor holds a single IEEE 754 floating-point number, so reshaping
    and permuting change nothing, a matrix product is a product, an
    embedding table has one row, and the lone element lies outside every
    rotary pair.  The arithmetic is that of the primitive floats: round to
    nearest even, with infinities, NaN and signed zeros.  Binary64 stands
    for the element type of the backend's tensors: what is proved of it
    below (a finite number times zero, an infinity times zero, zero plus a
    number, sums with NaN) holds in every IEEE 754 format.  The cache view
    is a window of one position. *)
Module Binary64.

Local Open Scope float_scope.

(** Equality as numbers: the same value, or two zeros of either sign. *)
Definition same (x y : float) : Prop :=
  x = y \/ (is_zero x = true /\ is_zero y = true).

(** [x^(2^n)], by repeated squaring. *)
Fixpoint square (n : nat) (x : float) : float :=
  match n with
  | O => x
  | S n => square n (x * x)
  end.

(** The exponential is not among the primitive operations: it is computed
    here by scaling and squaring, [exp x = (exp (x / 2^10))^(2^10)], from
    the Taylor polynomial of degree 12.  It is exact at zero, accurate to
    about nine significant digits elsewhere, and NaN at NaN. *)
Definition exp (x : float) : float :=
  if x <? -746 then 0
  else if 710 <? x then infinity
  else
    let y := x / 0x1p10 in
    square 10
      (fold_right (fun k acc => 1 + y / k * acc) 1
         [1; 2; 3; 4; 5; 6; 7; 8; 9; 10; 11; 12]).

(** The hyperbolic tangent, from the exponential; at either zero it is
    [+0]. *)
Definition tanh (x : float) : float := 1 - 2 / (exp (2 * x) + 1).

(** Softmax over the one element [t]: [exp(t - max) / sum], where the
    maximum is [t] and the sum is the one term. *)
Definition softmax (t : float) : float := exp (t - t) / exp (t - t).

#[export] Instance backend : Backend unit float float float float := {|
  Dim := fun _ _ => 1%Z;
  Reshape := fun t _ _ => t;
  Permute := fun t _ _ => t;
  Contiguous := fun t _ => t;
  Mulmat := fun t _ t2 => t * t2;
  Scale := fun t _ s => t * s;
  Add := fun t _ t2 => t + t2;
  Mul := fun t _ t2 => t * t2;
  Softmax := fun t _ => softmax t;
  SILU := fun t _ => t / (1 + exp (- t));
  Tanh := fun t _ => tanh t;
  Rope := fun t _ _ _ _ _ _ => t;
  Linear_apply := fun w _ t => w * t;
  RMSNorm_apply := fun w _ t eps => t / sqrt (t * t + eps) * w;
  Embedding_apply := fun w _ _ => w
|}.

#[export] Instance cache
    : CacheBackend unit float (SpecCache.handle unit) unit
        (gmap (list nat) (list (float * float))) :=
  SpecCache.impl (fun _ ts => default 0 (last ts)).

Abbreviation State :=
  (FwdState float (SpecCache.handle unit) unit
     (gmap (list nat) (list (float * float)))).

Definition empty_state : State := {| store := ∅; calls := [] |}.

Definition root : SpecCache.handle unit :=
  {| SpecCache.slice := []; SpecCache.options := tt |}.

End Binary64.


(** ** The spec's attention formulas (spec 4.1, steps 5 to 8) *)

Section SpecFormulas.

Context {Ctx Tensor Linear RMSNorm Embedding : Type}.
Context {B : Backend Ctx Tensor Linear RMSNorm Embedding}.

(** The factor [1/sqrt(headDim)]. *)
Definition spec_scale (headDim : Z) : float :=
  (1 / PrimFloat.sqrt (float64 headDim))%float.

(** Steps 5 and 6: raw scores are key . query (transposed matmul), scaled by
    [1/sqrt(headDim)]; a supplied mask is added elementwise. *)
Definition spec_scores (ctx : Ctx) (key query : Tensor) (headDim : Z)
    (mask : option Tensor) : Tensor :=
  let scaled := Scale (Mulmat key ctx query) ctx (spec_scale headDim) in
  match mask with
  | Some m => Add scaled ctx m
  | None => scaled
  end.

(** The attention-score layout of query and key, and of value. *)
Definition spec_layout_qk (ctx : Ctx) (t : Tensor) : Tensor :=
  Contiguous (Permute t ctx [0; 2; 1; 3]) ctx.

Definition spec_layout_v (ctx : Ctx) (t : Tensor) : Tensor :=
  Contiguous (Permute t ctx [1; 2; 0; 3]) ctx.

(** Steps 7 and 8: softmax, attention output = value . scores, permuted and
    reshaped back to (hiddenSize x batch), through the output projection. *)
Definition spec_attend (ctx : Ctx) (output : Linear) (value scores : Tensor)
    (hiddenSize batchSize : Z) : Tensor :=
  let attention := Mulmat value ctx (Softmax scores ctx) in
  let attention := Contiguous (Permute attention ctx [0; 2; 1; 3]) ctx in
  Linear_apply output ctx (Reshape attention ctx [hiddenSize; batchSize]).

(** Spec 4.3: [down(activation(gate(x)) * up(x))]. *)
Definition spec_feed_forward (ctx : Ctx) (up down gate : Linear) (x : Tensor)
    : Tensor :=
  Linear_apply down ctx
    (Mul (SILU (Linear_apply gate ctx x) ctx) ctx (Linear_apply up ctx x)).

(** Spec 3 and 8: a valid geometry has [headDim * numHeads == hiddenSize]
    and [numHeads % numKVHeads == 0]. *)
Definition spec_valid_geometry (hiddenSize numHeads numKVHeads : Z) : Prop :=
  numHeads <> 0 /\ numKVHeads <> 0 /\
  (hiddenSize ÷ numHeads) * numHeads = hiddenSize /\
  Z.rem numHeads numKVHeads = 0.

(** Spec 3: the cross-attention index set is a set of layer positions. *)
Definition spec_valid_index_set (blockCount : Z) (indices : list Z) : Prop :=
  NoDup indices /\ forall i, In i indices -> 0 <= i < blockCount.

(** The backend with another rotary embedding, with another RMS
    normalization, with another addition, and with another tanh. *)
Definition with_Rope
    (rope : Tensor -> Ctx -> Tensor -> option Tensor -> Z -> float -> float -> Tensor)
    : Backend Ctx Tensor Linear RMSNorm Embedding :=
  {| Dim := Dim; Reshape := Reshape; Permute := Permute;
     Contiguous := Contiguous; Mulmat := Mulmat; Scale := Scale; Add := Add;
     Mul := Mul; Softmax := Softmax; SILU := SILU; Tanh := Tanh;
     Rope := rope;
     Linear_apply := Linear_apply; RMSNorm_apply := RMSNorm_apply;
     Embedding_apply := Embedding_apply |}.

Definition with_RMSNorm (norm : RMSNorm -> Ctx -> Tensor -> float -> Tensor)
    : Backend Ctx Tensor Linear RMSNorm Embedding :=
  {| Dim := Dim; Reshape := Reshape; Permute := Permute;
     Contiguous := Contiguous; Mulmat := Mulmat; Scale := Scale; Add := Add;
     Mul := Mul; Softmax := Softmax; SILU := SILU; Tanh := Tanh;
     Rope := Rope;
     Linear_apply := Linear_apply; RMSNorm_apply := norm;
     Embedding_apply := Embedding_apply |}.

Definition with_Add (add : Tensor -> Ctx -> Tensor -> Tensor)
    : Backend Ctx Tensor Linear RMSNorm Embedding :=
  {| Dim := Dim; Reshape := Reshape; Permute := Permute;
     Contiguous := Contiguous; Mulmat := Mulmat; Scale := Scale; Add := add;
     Mul := Mul; Softmax := Softmax; SILU := SILU; Tanh := Tanh;
     Rope := Rope;
     Linear_apply := Linear_apply; RMSNorm_apply := RMSNorm_apply;
     Embedding_apply := Embedding_apply |}.

Definition with_Tanh (tanh : Tensor -> Ctx -> Tensor)
    : Backend Ctx Tensor Linear RMSNorm Embedding :=
  {| Dim := Dim; Reshape := Reshape; Permute := Permute;
     Contiguous := Contiguous; Mulmat := Mulmat; Scale := Scale; Add := Add;
     Mul := Mul; Softmax := Softmax; SILU := SILU; Tanh := tanh;
     Rope := Rope;
     Linear_apply := Linear_apply; RMSNorm_apply := RMSNorm_apply;
     Embedding_apply := Embedding_apply |}.

End SpecFormulas.

(** ** Concrete models over the symbolic backend *)

Module Example.
Import Graph.

Definition opts : TextModelOptions Node :=
  {| RopeFactors := Some (NInput "rope_freqs.weight" [2]);
     hiddenSize := 8; numHeads := 4; numKVHeads := 2;
     eps := 0x1p-20%float; ropeBase := 500000%float; ropeScale := 1%float;
     ropeDim := 2; crossAttentionLayers := [1] |}.

Definition attention : TextSelfAttention (string * Z) :=
  {| sa_Query := Some ("attn_q", 8); sa_Key := Some ("attn_k", 4);
     sa_Value := Some ("attn_v", 4); sa_Output := Some ("attn_output", 8) |}.

Definition mlp : TextMLP (string * Z) :=
  {| Up := Some ("ffn_up", 16); Down := Some ("ffn_down", 8);
     Gate := Some ("ffn_gate", 16) |}.

Definition self_layer : TextSelfAttentionDecoderLayer (string * Z) string :=
  {| sl_AttentionNorm := Some "attn_norm"; sl_SelfAttention := Some attention;
     sl_MLPNorm := Some "ffn_norm"; sl_MLP := Some mlp |}.

Definition cross_attention : TextCrossAttention (string * Z) string :=
  {| ca_QueryNorm := Some "cross_attn_q_norm";
     ca_Query := Some ("cross_attn_q_proj", 8);
     ca_KeyNorm := Some "cross_attn_k_norm";
     ca_Key := Some ("cross_attn_k_proj", 4);
     ca_Value := Some ("cross_attn_v_proj", 4);
     ca_Output := Some ("cross_attn_o_proj", 8) |}.

Definition cross_layer
    : TextCrossAttentionDecoderLayer Node (string * Z) string :=
  {| cl_AttentionNorm := Some "attn_norm";
     cl_CrossAttention := Some cross_attention;
     cl_AttentionGate := Some (NInput "cross_attn_attn_gate" [1]);
     cl_MLPNorm := Some "ffn_norm"; cl_MLP := Some mlp;
     cl_MLPGate := Some (NInput "cross_attn_mlp_gate" [1]) |}.

(** Layer 0 self-attention, layer 1 cross-attention. *)
Definition decoder : TextDecoder Node (string * Z) string :=
  {| Layers := [SelfAttentionDecoderLayer self_layer;
                CrossAttentionDecoderLayer cross_layer] |}.

Definition model : TextModel Node (string * Z) string (string * Z) :=
  {| TokenEmbedding := Some ("token_embd", 8); Transformer := decoder;
     OutputNorm := Some "output_norm"; Output := Some ("output", 32);
     Opts := opts |}.

(** Four positions of hidden state, their ids and positions, a causal mask,
    and vision features of 3 tokens in 1 tile. *)
Definition hidden : Node := NInput "hidden" [8; 4].
Definition tokens : Node := NInput "tokens" [4].
Definition positions : Node := NInput "positions" [4].
Definition causal : Node := NInput "mask" [4; 4].
Definition vision : Node := NInput "vision" [8; 3; 1].
Definition vision_mask : Node := NInput "vision_mask" [3; 4].

(** The projections of [hidden] the example attention unit makes:
    headDim is 8 / 4 = 2. *)
Definition rope (t : Node) : Node :=
  NRope t positions (Some (NInput "rope_freqs.weight" [2])) 2
    500000%float 1%float.
Definition query0 : Node := rope (NReshape (NLinear ("attn_q", 8) hidden) [2; 4; 4]).
Definition key0 : Node := rope (NReshape (NLinear ("attn_k", 4) hidden) [2; 2; 4]).
Definition value0 : Node := NReshape (NLinear ("attn_v", 4) hidden) [2; 2; 4].

(** A store in which slice 0 already holds the key and value of an
    earlier step. *)
Definition earlier_key : Node := NInput "earlier_key" [2; 2; 4].
Definition earlier_value : Node := NInput "earlier_value" [2; 2; 4].
Definition later_state : State :=
  {| store := {[ [0%nat] := [(earlier_key, earlier_value)] ]};
     calls := [] |}.
Definition slice0 : SpecCache.handle Z :=
  {| SpecCache.slice := [0%nat]; SpecCache.options := 4 |}.

(** A configuration whose hidden size 10 is not a multiple of its 3 heads,
    whose 3 heads are not a multiple of its 2 key/value heads, and whose
    cross-attention index list repeats an index and names layer 7 of 2. *)
Definition bad_config : Config :=
  {| Uint := fun key _ =>
       if String.eqb key "block_count" then 2
       else if String.eqb key "embedding_length" then 10
       else if String.eqb key "attention.head_count" then 3
       else if String.eqb key "attention.head_count_kv" then 2
       else if String.eqb key "rope.dimension_count" then 64
       else 0;
     Uints := fun key _ =>
       if String.eqb key "attention.cross_attention_layers" then [1; 1; 7]
       else [];
     Float := fun key defaults => hd 0%float defaults |}.

End Example.

Module Binary64Example.
Import Binary64.
Local Open Scope float_scope.

Definition opts : TextModelOptions float :=
  {| RopeFactors := None; hiddenSize := 1; numHeads := 1; numKVHeads := 1;
     eps := 0x1p-20; ropeBase := 500000; ropeScale := 1;
     ropeDim := 0; crossAttentionLayers := [0%Z] |}.

Definition cross_attention : TextCrossAttention float float :=
  {| ca_QueryNorm := Some 1; ca_Query := Some 2; ca_KeyNorm := Some 1;
     ca_Key := Some 3; ca_Value := Some 4; ca_Output := Some 5 |}.

Definition mlp : TextMLP float :=
  {| Up := Some 2; Down := Some 3; Gate := Some 4 |}.

(** A cross-attention layer whose two gates are zero. *)
Definition closed_layer : TextCrossAttentionDecoderLayer float float float :=
  {| cl_AttentionNorm := Some 1; cl_CrossAttention := Some cross_attention;
     cl_AttentionGate := Some 0; cl_MLPNorm := Some 1;
     cl_MLP := Some mlp; cl_MLPGate := Some (-0) |}.

(** The same layer with an output projection of weight [2^1023]: the
    attention output, [2^1023 * 8] on the vision feature 2, overflows. *)
Definition overflow_attention : TextCrossAttention float float :=
  {| ca_QueryNorm := Some 1; ca_Query := Some 2; ca_KeyNorm := Some 1;
     ca_Key := Some 3; ca_Value := Some 4; ca_Output := Some 0x1p1023 |}.

Definition overflow_layer : TextCrossAttentionDecoderLayer float float float :=
  {| cl_AttentionNorm := Some 1; cl_CrossAttention := Some overflow_attention;
     cl_AttentionGate := Some 0; cl_MLPNorm := Some 1;
     cl_MLP := Some mlp; cl_MLPGate := Some 0 |}.

End Binary64Example.

(** ** Loaded weights, and counting cache calls *)

Section Loaded.

Context {Tensor Linear RMSNorm Embedding : Type}.

(** Every pointer and tensor field the forward functions dereference is
    non-nil. *)
Definition TextSelfAttention_loaded (sa : TextSelfAttention Linear) : bool :=
  not_nil (sa_Query sa) && not_nil (sa_Key sa) && not_nil (sa_Value sa)
  && not_nil (sa_Output sa).

Definition TextMLP_loaded (mlp : TextMLP Linear) : bool :=
  not_nil (Up mlp) && not_nil (Down mlp) && not_nil (Gate mlp).

Definition TextCrossAttention_loaded (ca : TextCrossAttention Linear RMSNorm)
    : bool :=
  not_nil (ca_QueryNorm ca) && not_nil (ca_Query ca)
  && not_nil (ca_KeyNorm ca) && not_nil (ca_Key ca)
  && not_nil (ca_Value ca) && not_nil (ca_Output ca).

Definition TextDecoderLayer_loaded
    (layer : TextDecoderLayer Tensor Linear RMSNorm) : bool :=
  match layer with
  | SelfAttentionDecoderLayer d =>
      not_nil (sl_AttentionNorm d)
      && from_option TextSelfAttention_loaded false (sl_SelfAttention d)
      && not_nil (sl_MLPNorm d)
      && from_option TextMLP_loaded false (sl_MLP d)
  | CrossAttentionDecoderLayer d =>
      not_nil (cl_AttentionNorm d)
      && from_option TextCrossAttention_loaded false (cl_CrossAttention d)
      && not_nil (cl_AttentionGate d)
      && not_nil (cl_MLPNorm d)
      && from_option TextMLP_loaded false (cl_MLP d)
      && not_nil (cl_MLPGate d)
  end.


(** The layers of a list, from index [i] on, that the guard lets through
    and that are self-attention layers. *)
Definition executed_self_layers (cas : option Tensor)
    (opts : TextModelOptions Tensor)
    (layers : list (TextDecoderLayer Tensor Linear RMSNorm)) (i : nat)
    : list (nat * TextDecoderLayer Tensor Linear RMSNorm) :=
  List.filter
    (fun p => TextDecoder_runs cas opts (fst p)
              && negb (is_cross_attention_layer (snd p)))
    (combine (seq i (length layers)) layers).

End Loaded.

Section PutCalls.

Context {Tensor Cache CacheOptions : Type}.

(** The handles of the [Put] calls of a log, in order. *)
Definition Put_calls (cs : list (CacheCall Tensor Cache CacheOptions))
    : list Cache :=
  omap (fun e =>
          match e with
          | CallSub _ _ => None
          | CallPut c _ _ _ => Some c
          end) cs.

End PutCalls.

(** ** Further concrete models *)

Module Example2.
Import Graph Example.

(** The example decoder with its layers in the wrong order for the index
    list [1] of [opts]: the cross-attention layer sits at index 0. *)
Definition swapped_decoder : TextDecoder Node (string * Z) string :=
  {| Layers := [CrossAttentionDecoderLayer cross_layer;
                SelfAttentionDecoderLayer self_layer] |}.

(** The example decoder with the weights of its cross-attention layer not
    loaded. *)
Definition text_decoder : TextDecoder Node (string * Z) string :=
  {| Layers := [SelfAttentionDecoderLayer self_layer;
                CrossAttentionDecoderLayer
                  {| cl_AttentionNorm := None; cl_CrossAttention := None;
                     cl_AttentionGate := None; cl_MLPNorm := None;
                     cl_MLP := None; cl_MLPGate := None |}] |}.

(** A decoder of two self-attention layers. *)
Definition self_decoder : TextDecoder Node (string * Z) string :=
  {| Layers := [SelfAttentionDecoderLayer self_layer;
                SelfAttentionDecoderLayer self_layer] |}.

(** The configuration of [bad_config] with its index list cleaned up. *)
Definition clean_config : Config :=
  {| Uint := Uint bad_config;
     Uints := fun key _ =>
       if String.eqb key "attention.cross_attention_layers" then [1]
       else [];
     Float := Float bad_config |}.

End Example2.

(** ** Properties *)

Lemma div64_nonzero (a b : Z) : b <> 0 -> div64 a b = Some (wrap64 (a ÷ b)).
Proof.
  intros Hb. unfold div64. destruct (Z.eqb_spec b 0); [contradiction | reflexivity].
Qed.

Lemma uint32_small (i : nat) : Z.of_nat i < 2 ^ 32 -> uint32 (Z.of_nat i) = Z.of_nat i.
Proof. intros Hi. unfold uint32. apply Z.mod_small. lia. Qed.

Lemma slices_Contains_In (s : list Z) (v : Z) :
  slices_Contains s v = true <-> In v s.
Proof.
  unfold slices_Contains. rewrite existsb_exists. split.
  - intros (x & Hx & Heq). apply Z.eqb_eq in Heq. subst. exact Hx.
  - intros Hin. exists v. split; [exact Hin | apply Z.eqb_refl].
Qed.

Lemma bind_Returned {St A C} (m : M St A) (k : A -> M St C) (st : St)
    (r : C * St) :
  bind m k st = Returned r ->
  exists a st', m st = Returned (a, st') /\ k a st' = Returned r.
Proof.
  unfold bind. destruct (m st) as [[a st'] |]; [| discriminate].
  intros H. exists a, st'. split; [reflexivity | exact H].
Qed.

Lemma ret_Returned {St A} (a b : A) (st st' : St) :
  ret a st = Returned (b, st') -> b = a /\ st' = st.
Proof. unfold ret. intros [= -> ->]. split; reflexivity. Qed.

Lemma deref_Returned {St A} (p : option A) (a : A) (st st' : St) :
  deref p st = Returned (a, st') -> p = Some a /\ st' = st.
Proof.
  destruct p as [x |]; simpl; [| discriminate].
  intros H. apply ret_Returned in H as [-> ->]. split; reflexivity.
Qed.

(** Inversion of a forward computation that returned. *)
Ltac inv_fwd :=
  repeat match goal with
    | H : bind _ _ _ = Returned _ |- _ =>
        apply bind_Returned in H as (? & ? & ? & H)
    | H : deref _ _ = Returned _ |- _ =>
        apply deref_Returned in H as [? ?]; subst
    | H : ret _ _ = Returned _ |- _ =>
        apply ret_Returned in H as [? ?]; subst
    end.

(** Case analysis on the outcome of the next call. *)
Ltac case_call E :=
  match goal with
  | |- context [match ?c with Returned _ => _ | Panicked => _ end] =>
      destruct c as [[? ?] |] eqn:E; [| try discriminate; try reflexivity]
  end.

(** Unfolding the forward monad. *)
Ltac fwd :=
  unfold nn_Linear_Forward, nn_RMSNorm_Forward, nn_Embedding_Forward,
    bind, ret, deref, panic; simpl.

Arguments TextSelfAttention_Forward : simpl never.
Arguments TextCrossAttention_Forward : simpl never.
Arguments TextMLP_Forward : simpl never.
Arguments TextSelfAttentionDecoderLayer_Forward : simpl never.
Arguments TextCrossAttentionDecoderLayer_Forward : simpl never.
Arguments TextDecoderLayer_Forward : simpl never.
Arguments TextDecoder_iteration : simpl never.
Arguments Cache_Put : simpl never.
Arguments Cache_Sub : simpl never.
Arguments float64 : simpl never.
Arguments wrap64 : simpl never.

(** *** The decoder, layer by layer *)

Section Decoder.

Context {Ctx Tensor Linear RMSNorm Embedding : Type}.
Context {B : Backend Ctx Tensor Linear RMSNorm Embedding}.
Context {Cache CacheOptions Store : Type}.
Context {C : CacheBackend Ctx Tensor Cache CacheOptions Store}.

(** The loop over [layers ++ [layer]] from index [i] is the loop over
    [layers], then the iteration of [layer] at index [i + length layers]. *)
Lemma TextDecoder_loop_snoc
    (layers : list (TextDecoderLayer Tensor Linear RMSNorm))
    (layer : TextDecoderLayer Tensor Linear RMSNorm) (ctx : Ctx)
    (pos : Tensor) (mask cas cam : option Tensor) (cache : Cache)
    (opts : TextModelOptions Tensor) :
  forall (i : nat) (h : Tensor) (s : FwdState Tensor Cache CacheOptions Store),
    TextDecoder_loop ctx pos mask cas cam cache opts (layers ++ [layer]) i h s
    = match TextDecoder_loop ctx pos mask cas cam cache opts layers i h s with
      | Returned (h1, s1) =>
          TextDecoder_iteration ctx pos mask cas cam cache opts
            (i + length layers) layer h1 s1
      | Panicked => Panicked
      end.
Proof.
  induction layers as [| l layers IH]; intros i h s.
  - simpl. unfold bind, ret. rewrite Nat.add_0_r.
    destruct (TextDecoder_iteration ctx pos mask cas cam cache opts i layer h s)
      as [[h1 s1] |]; reflexivity.
  - simpl. unfold bind.
    destruct (TextDecoder_iteration ctx pos mask cas cam cache opts i l h s)
      as [[h1 s1] |]; [| reflexivity].
    rewrite IH. replace (S i + length layers)%nat with (i + S (length layers))%nat by lia.
    reflexivity.
Qed.

(** A decoder whose layers are those of [d0] and then [layer] does what
    [d0] does, then the iteration of [layer] at index [length (Layers d0)]
    on the hidden state and the state [d0] returned. *)
Lemma TextDecoder_Forward_snoc (d0 d : TextDecoder Tensor Linear RMSNorm)
    (layer : TextDecoderLayer Tensor Linear RMSNorm) (ctx : Ctx)
    (h pos : Tensor) (mask cas cam : option Tensor) (cache : Cache)
    (opts : TextModelOptions Tensor)
    (s : FwdState Tensor Cache CacheOptions Store) :
  Layers d = Layers d0 ++ [layer] ->
  TextDecoder_Forward d ctx h pos mask cas cam cache opts s
  = match TextDecoder_Forward d0 ctx h pos mask cas cam cache opts s with
    | Returned (h1, s1) =>
        TextDecoder_iteration ctx pos mask cas cam cache opts
          (length (Layers d0)) layer h1 s1
    | Panicked => Panicked
    end.
Proof.
  intros Hd. unfold TextDecoder_Forward. rewrite Hd.
  apply TextDecoder_loop_snoc.
Qed.

End Decoder.

Section Properties.

Context {Ctx Tensor Linear RMSNorm Embedding : Type}.
Context {B : Backend Ctx Tensor Linear RMSNorm Embedding}.
Context {Cache CacheOptions Store : Type}.
Context {C : CacheBackend Ctx Tensor Cache CacheOptions Store}.

Abbreviation State := (FwdState Tensor Cache CacheOptions Store).
Abbreviation TextModelOptions := (TextModelOptions Tensor).

Lemma Cache_Put_Returned (c : Cache) (ctx : Ctx) (key value : Tensor)
    (o : CacheOptions) (s s' : State) (kv : Tensor * Tensor) :
  Cache_Put c ctx key value o s = Returned (kv, s') ->
  calls s' = calls s ++ [CallPut c key value o].
Proof.
  unfold Cache_Put.
  destruct (Put c ctx key value o (store s)) as [[kv' store'] |]; [| discriminate].
  intros [= _ <-]. reflexivity.
Qed.

(** *** The gated feed-forward unit *)

(** C9: for every input [x] the gated feed-forward unit returns
    [down(silu(gate(x)) * up(x))], leaves the cache alone, and applies no
    normalization: it computes the same under any RMS normalization. *)
Theorem TextMLP_Forward_spec (up down gate : Linear) (ctx : Ctx) (x : Tensor)
    (opts : TextModelOptions) (s : State) :
  let mlp := {| Up := Some up; Down := Some down; Gate := Some gate |} in
  TextMLP_Forward mlp ctx x opts s
    = Returned (spec_feed_forward ctx up down gate x, s)
  /\ spec_feed_forward ctx up down gate x
     = Linear_apply down ctx
         (Mul (SILU (Linear_apply gate ctx x) ctx) ctx (Linear_apply up ctx x))
  /\ forall norm,
       TextMLP_Forward (B := with_RMSNorm norm) mlp ctx x opts s
       = TextMLP_Forward mlp ctx x opts s.
Proof.
  intros mlp. split; [| split].
  - unfold TextMLP_Forward. fwd. reflexivity.
  - reflexivity.
  - intros norm. reflexivity.
Qed.

(** *** The self-attention unit *)

(** The closed form of a self-attention call that does not divide by
    zero. *)
Lemma TextSelfAttention_Forward_eq (q k v o : Linear) (ctx : Ctx)
    (h pos : Tensor) (mask : option Tensor) (cache : Cache)
    (opts : TextModelOptions) (s : State) :
  numHeads opts <> 0 ->
  let sa := {| sa_Query := Some q; sa_Key := Some k; sa_Value := Some v;
               sa_Output := Some o |} in
  let headDim := wrap64 (hiddenSize opts ÷ numHeads opts) in
  let batchSize := Dim h 1 in
  let rope t := Rope t ctx pos (RopeFactors opts) (ropeDim opts)
                  (ropeBase opts) (ropeScale opts) in
  let query := rope (Reshape (Linear_apply q ctx h) ctx
                       [headDim; numHeads opts; batchSize]) in
  let key := rope (Reshape (Linear_apply k ctx h) ctx
                     [headDim; numKVHeads opts; batchSize]) in
  let value := Reshape (Linear_apply v ctx h) ctx
                 [headDim; numKVHeads opts; batchSize] in
  TextSelfAttention_Forward sa ctx h pos mask cache opts s
  = match Cache_Put cache ctx key value (Options cache) s with
    | Returned ((keys, values), s') =>
        Returned
          (spec_attend ctx o (spec_layout_v ctx values)
             (spec_scores ctx (spec_layout_qk ctx keys)
                (spec_layout_qk ctx query) headDim mask)
             (hiddenSize opts) batchSize,
           s')
    | Panicked => Panicked
    end.
Proof.
  intros Hn. cbv beta zeta.
  unfold TextSelfAttention_Forward.
  rewrite (div64_nonzero _ _ Hn). fwd.
  destruct (Cache_Put cache ctx _ _ (Options cache) s) as [[[keys values] s'] |];
    [| reflexivity].
  unfold spec_attend, spec_scores, spec_layout_qk, spec_layout_v, spec_scale.
  destruct mask; reflexivity.
Qed.

(** C3: in every self-attention call (one that does not divide by a zero
    head count and whose [Put] returns), with [key] and [query] the
    permuted accumulated key and the permuted projected query, the tensor
    given to softmax is [key.Mulmat(query)] scaled by [1/sqrt(headDim)],
    where [headDim = hiddenSize / numHeads], plus the mask when one is
    supplied and with no mask term when it is nil. *)
Theorem TextSelfAttention_scores (q k v o : Linear) (ctx : Ctx)
    (h pos : Tensor) (mask : option Tensor) (cache : Cache)
    (opts : TextModelOptions) (s : State) :
  numHeads opts <> 0 ->
  let sa := {| sa_Query := Some q; sa_Key := Some k; sa_Value := Some v;
               sa_Output := Some o |} in
  let headDim := wrap64 (hiddenSize opts ÷ numHeads opts) in
  let rope t := Rope t ctx pos (RopeFactors opts) (ropeDim opts)
                  (ropeBase opts) (ropeScale opts) in
  let query0 := rope (Reshape (Linear_apply q ctx h) ctx
                        [headDim; numHeads opts; Dim h 1]) in
  let key0 := rope (Reshape (Linear_apply k ctx h) ctx
                      [headDim; numKVHeads opts; Dim h 1]) in
  let value0 := Reshape (Linear_apply v ctx h) ctx
                  [headDim; numKVHeads opts; Dim h 1] in
  forall keys values s',
    Cache_Put cache ctx key0 value0 (Options cache) s
    = Returned ((keys, values), s') ->
    let query := Contiguous (Permute query0 ctx [0; 2; 1; 3]) ctx in
    let key := Contiguous (Permute keys ctx [0; 2; 1; 3]) ctx in
    let value := Contiguous (Permute values ctx [1; 2; 0; 3]) ctx in
    let scaled :=
      Scale (Mulmat key ctx query) ctx
        (1 / PrimFloat.sqrt (float64 headDim))%float in
    let scores :=
      match mask with
      | Some m => Add scaled ctx m
      | None => scaled
      end in
    spec_scores ctx key query headDim mask = scores /\
    TextSelfAttention_Forward sa ctx h pos mask cache opts s
    = Returned
        (Linear_apply o ctx
           (Reshape
              (Contiguous
                 (Permute (Mulmat value ctx (Softmax scores ctx)) ctx
                    [0; 2; 1; 3]) ctx)
              ctx [hiddenSize opts; Dim h 1]),
         s').
Proof.
  intros Hn. cbv beta zeta. intros keys values s' HPut.
  pose proof (TextSelfAttention_Forward_eq q k v o ctx h pos mask cache opts s Hn) as E.
  cbv beta zeta in E. rewrite HPut in E. split.
  - unfold spec_scores, spec_scale. destruct mask; reflexivity.
  - rewrite E. unfold spec_attend, spec_scores, spec_layout_qk, spec_layout_v, spec_scale.
    destruct mask; reflexivity.
Qed.

(** C8: the projected query is reshaped to (headDim, numHeads, batch), the
    projected key and value to (headDim, numKVHeads, batch); query and key
    go through one and the same rotary embedding (same positions,
    ropeFactors, ropeDim, ropeBase, ropeScale), value through none: these
    are the key and value handed to the cache, in the one [Put] a call
    makes, and the query that is scored. *)
Theorem TextSelfAttention_projections (q k v o : Linear) (ctx : Ctx)
    (h pos : Tensor) (mask : option Tensor) (cache : Cache)
    (opts : TextModelOptions) (s : State) :
  numHeads opts <> 0 ->
  let sa := {| sa_Query := Some q; sa_Key := Some k; sa_Value := Some v;
               sa_Output := Some o |} in
  let headDim := wrap64 (hiddenSize opts ÷ numHeads opts) in
  let batchSize := Dim h 1 in
  let rope t := Rope t ctx pos (RopeFactors opts) (ropeDim opts)
                  (ropeBase opts) (ropeScale opts) in
  let query := rope (Reshape (Linear_apply q ctx h) ctx
                       [headDim; numHeads opts; batchSize]) in
  let key := rope (Reshape (Linear_apply k ctx h) ctx
                     [headDim; numKVHeads opts; batchSize]) in
  let value := Reshape (Linear_apply v ctx h) ctx
                 [headDim; numKVHeads opts; batchSize] in
  TextSelfAttention_Forward sa ctx h pos mask cache opts s
  = match Cache_Put cache ctx key value (Options cache) s with
    | Returned ((keys, values), s') =>
        Returned
          (spec_attend ctx o (spec_layout_v ctx values)
             (spec_scores ctx (spec_layout_qk ctx keys)
                (spec_layout_qk ctx query) headDim mask)
             (hiddenSize opts) batchSize,
           s')
    | Panicked => Panicked
    end
  /\ forall r s',
       TextSelfAttention_Forward sa ctx h pos mask cache opts s
       = Returned (r, s') ->
       calls s' = calls s ++ [CallPut cache key value (Options cache)].
Proof.
  intros Hn. cbv beta zeta.
  pose proof (TextSelfAttention_Forward_eq q k v o ctx h pos mask cache opts s Hn) as E.
  cbv beta zeta in E. split; [exact E |].
  intros r s'. rewrite E.
  case_call HPut. destruct p as [keys values].
  intros [= _ <-]. exact (Cache_Put_Returned _ _ _ _ _ _ _ _ HPut).
Qed.

(** *** The self-attention decoder layer *)

(** C7: the self-attention decoder layer normalizes its input, applies
    self-attention with the cache, adds the input; then normalizes that
    sum, applies the feed-forward unit and adds the sum; neither sublayer
    output is gated: the layer computes the same under any tanh. *)
Theorem TextSelfAttentionDecoderLayer_Forward_spec (an mn : RMSNorm)
    (sa : TextSelfAttention Linear) (up down gate : Linear) (ctx : Ctx)
    (h pos : Tensor) (mask a b : option Tensor) (cache : Cache)
    (opts : TextModelOptions) (s : State) :
  let d := {| sl_AttentionNorm := Some an; sl_SelfAttention := Some sa;
              sl_MLPNorm := Some mn;
              sl_MLP := Some {| Up := Some up; Down := Some down;
                                Gate := Some gate |} |} in
  TextSelfAttentionDecoderLayer_Forward d ctx h pos mask a b cache opts s
  = match TextSelfAttention_Forward sa ctx (RMSNorm_apply an ctx h (eps opts))
            pos mask cache opts s with
    | Returned (attention, s') =>
        let sum := Add attention ctx h in
        Returned
          (Add (spec_feed_forward ctx up down gate
                  (RMSNorm_apply mn ctx sum (eps opts))) ctx sum,
           s')
    | Panicked => Panicked
    end
  /\ forall tanh,
       TextSelfAttentionDecoderLayer_Forward (B := with_Tanh tanh) d ctx h pos
         mask a b cache opts s
       = TextSelfAttentionDecoderLayer_Forward d ctx h pos mask a b cache
           opts s.
Proof.
  intros d. split; [| reflexivity].
  unfold TextSelfAttentionDecoderLayer_Forward. fwd.
  case_call Esa. unfold TextMLP_Forward. fwd. reflexivity.
Qed.

(** *** The cross-attention unit *)

(** A cross-attention call that returns leaves the cache store and the log
    of cache calls as they were. *)
Lemma TextCrossAttention_Forward_state (ca : TextCrossAttention Linear RMSNorm)
    (ctx : Ctx) (h : Tensor) (cas : option Tensor) (cache : Cache)
    (opts : TextModelOptions) (s s' : State) (r : Tensor) :
  TextCrossAttention_Forward ca ctx h cas cache opts s = Returned (r, s') ->
  s' = s.
Proof.
  unfold TextCrossAttention_Forward, nn_Linear_Forward, nn_RMSNorm_Forward.
  intros H. inv_fwd. reflexivity.
Qed.

(** C5: a cross-attention call (one that does not divide by a zero head
    count) normalizes the reshaped query and key projections before
    scoring, gives softmax the scaled scores with no mask term, and returns
    with the cache store and the log of cache calls unchanged, so that key
    and value are projected from the cross-modal tensor whatever the cache
    holds; no cross-attention call puts to the cache, and each computes the
    same under any rotary embedding and under any tensor addition. *)
Theorem TextCrossAttention_Forward_spec (qn kn : RMSNorm) (q k v o : Linear)
    (ctx : Ctx) (h c : Tensor) (cache : Cache) (opts : TextModelOptions)
    (s : State) :
  numHeads opts <> 0 ->
  let ca := {| ca_QueryNorm := Some qn; ca_Query := Some q;
               ca_KeyNorm := Some kn; ca_Key := Some k; ca_Value := Some v;
               ca_Output := Some o |} in
  let headDim := wrap64 (hiddenSize opts ÷ numHeads opts) in
  let batchSize := Dim h 1 in
  let visionSize := mul64 (Dim c 1) (Dim c 2) in
  let query := RMSNorm_apply qn ctx
                 (Reshape (Linear_apply q ctx h) ctx
                    [headDim; numHeads opts; batchSize]) (eps opts) in
  let key := RMSNorm_apply kn ctx
               (Reshape (Linear_apply k ctx c) ctx
                  [headDim; numKVHeads opts; visionSize]) (eps opts) in
  let value := Reshape (Linear_apply v ctx c) ctx
                 [headDim; numKVHeads opts; visionSize] in
  let scores :=
    Scale (Mulmat (spec_layout_qk ctx key) ctx (spec_layout_qk ctx query)) ctx
      (1 / PrimFloat.sqrt (float64 headDim))%float in
  TextCrossAttention_Forward ca ctx h (Some c) cache opts s
  = Returned
      (spec_attend ctx o (spec_layout_v ctx value) scores (hiddenSize opts)
         batchSize,
       s)
  /\ (forall ca' h' cas' (cache' : Cache) opts' (s1 s2 : State) r,
        TextCrossAttention_Forward ca' ctx h' cas' cache' opts' s1
        = Returned (r, s2) ->
        s2 = s1)
  /\ (forall rope add ca' h' cas' (cache' : Cache) opts' (s1 : State),
        TextCrossAttention_Forward (B := with_Rope rope) ca' ctx h' cas'
          cache' opts' s1
        = TextCrossAttention_Forward ca' ctx h' cas' cache' opts' s1
        /\ TextCrossAttention_Forward (B := with_Add add) ca' ctx h' cas'
             cache' opts' s1
           = TextCrossAttention_Forward ca' ctx h' cas' cache' opts' s1).
Proof.
  intros Hn. cbv beta zeta. split; [| split].
  - unfold TextCrossAttention_Forward.
    rewrite (div64_nonzero _ _ Hn). fwd. reflexivity.
  - intros ca' h' cas' cache' opts' s1 s2 r H.
    exact (TextCrossAttention_Forward_state _ _ _ _ _ _ _ _ _ H).
  - intros. split; reflexivity.
Qed.

(** *** The cache in the self-attention unit and in the decoder *)

(** C4: self-attention scores against the key and value tensors [Put]
    returns, not against the ones it projected; in the decoder the layer
    executed at index [i] is given the handle [Sub(i)] returns: a decoder
    forward call over the layers of [d0] followed by [layer], when the
    guard passes at index [length (Layers d0)], is the call over [d0], then
    [Sub] at that index on the decoder's handle, then the layer's forward
    call on the handle [Sub] returned, with the hidden state and the store
    the call over [d0] returned.  With the cache of the spec, [Put] returns
    the views of the slice's prior keys and values followed by the current
    step's and changes that slice only, the handles [Sub] returns for two
    different indices address different slices, and the layer at index [i]
    of a decoder forward call runs on the slice [i] of the decoder's
    handle. *)
Theorem TextSelfAttention_cache (q k v o : Linear) (ctx : Ctx)
    (h pos : Tensor) (mask : option Tensor) (cache : Cache)
    (opts : TextModelOptions) (s : State) :
  let sa := {| sa_Query := Some q; sa_Key := Some k; sa_Value := Some v;
               sa_Output := Some o |} in
  let headDim := wrap64 (hiddenSize opts ÷ numHeads opts) in
  let rope t := Rope t ctx pos (RopeFactors opts) (ropeDim opts)
                  (ropeBase opts) (ropeScale opts) in
  let query := rope (Reshape (Linear_apply q ctx h) ctx
                       [headDim; numHeads opts; Dim h 1]) in
  let key0 := rope (Reshape (Linear_apply k ctx h) ctx
                      [headDim; numKVHeads opts; Dim h 1]) in
  let value0 := Reshape (Linear_apply v ctx h) ctx
                  [headDim; numKVHeads opts; Dim h 1] in
  (numHeads opts <> 0 ->
   forall keys values s',
     Cache_Put cache ctx key0 value0 (Options cache) s
     = Returned ((keys, values), s') ->
     TextSelfAttention_Forward sa ctx h pos mask cache opts s
     = Returned
         (spec_attend ctx o (spec_layout_v ctx values)
            (spec_scores ctx (spec_layout_qk ctx keys)
               (spec_layout_qk ctx query) headDim mask)
            (hiddenSize opts) (Dim h 1),
          s'))
  /\ (forall cas cam i layer hiddenState st,
        TextDecoder_runs cas opts i = true ->
        TextDecoder_iteration ctx pos mask cas cam cache opts i layer
          hiddenState st
        = match Cache_Sub cache i st with
          | Returned (sub, st') =>
              TextDecoderLayer_Forward layer ctx hiddenState pos mask cas cam
                sub opts st'
          | Panicked => Panicked
          end)
  /\ (forall (view : Ctx -> list Tensor -> Tensor)
         (c : SpecCache.handle CacheOptions) (key value : Tensor)
         (co : CacheOptions) (i j : nat)
         (st : FwdState Tensor (SpecCache.handle CacheOptions) CacheOptions
                 (gmap (list nat) (list (Tensor * Tensor)))),
        let prior := default [] (store st !! SpecCache.slice c) in
        let hist := prior ++ [(key, value)] in
        Cache_Put (C := SpecCache.impl view) c ctx key value co st
        = Returned
            ((view ctx (prior.*1 ++ [key]), view ctx (prior.*2 ++ [value])),
             {| store := <[SpecCache.slice c := hist]> (store st);
                calls := calls st ++ [CallPut c key value co] |})
        /\ <[SpecCache.slice c := hist]> (store st) !! SpecCache.slice c
           = Some hist
        /\ (forall sl, sl <> SpecCache.slice c ->
              <[SpecCache.slice c := hist]> (store st) !! sl = store st !! sl)
        /\ Cache_Sub (C := SpecCache.impl view) c i st
           = Returned
               ({| SpecCache.slice := SpecCache.slice c ++ [i];
                   SpecCache.options := SpecCache.options c |},
                {| store := store st; calls := calls st ++ [CallSub c i] |})
        /\ (i <> j -> SpecCache.slice c ++ [i] <> SpecCache.slice c ++ [j]))
  /\ (forall (d0 d : TextDecoder Tensor Linear RMSNorm) layer cas cam
         hiddenState st,
        Layers d = Layers d0 ++ [layer] ->
        TextDecoder_runs cas opts (length (Layers d0)) = true ->
        TextDecoder_Forward d ctx hiddenState pos mask cas cam cache opts st
        = match TextDecoder_Forward d0 ctx hiddenState pos mask cas cam cache
                  opts st with
          | Returned (h_i, s_i) =>
              match Cache_Sub cache (length (Layers d0)) s_i with
              | Returned (sub, s_sub) =>
                  TextDecoderLayer_Forward layer ctx h_i pos mask cas cam sub
                    opts s_sub
              | Panicked => Panicked
              end
          | Panicked => Panicked
          end)
  /\ (forall (view : Ctx -> list Tensor -> Tensor)
         (c : SpecCache.handle CacheOptions)
         (d0 d : TextDecoder Tensor Linear RMSNorm) layer cas cam hiddenState
         (st : FwdState Tensor (SpecCache.handle CacheOptions) CacheOptions
                 (gmap (list nat) (list (Tensor * Tensor)))),
        Layers d = Layers d0 ++ [layer] ->
        TextDecoder_runs cas opts (length (Layers d0)) = true ->
        TextDecoder_Forward (C := SpecCache.impl view) d ctx hiddenState pos
          mask cas cam c opts st
        = match TextDecoder_Forward (C := SpecCache.impl view) d0 ctx
                  hiddenState pos mask cas cam c opts st with
          | Returned (h_i, s_i) =>
              TextDecoderLayer_Forward (C := SpecCache.impl view) layer ctx
                h_i pos mask cas cam
                {| SpecCache.slice := SpecCache.slice c ++ [length (Layers d0)];
                   SpecCache.options := SpecCache.options c |}
                opts
                {| store := store s_i;
                   calls := calls s_i ++ [CallSub c (length (Layers d0))] |}
          | Panicked => Panicked
          end).
Proof.
  cbv beta zeta. split; [| split; [| split; [| split]]].
  - intros Hn keys values s' HPut.
    pose proof (TextSelfAttention_Forward_eq q k v o ctx h pos mask cache opts s Hn) as E.
    cbv beta zeta in E. rewrite HPut in E. exact E.
  - intros cas cam i layer hiddenState st Hruns.
    unfold TextDecoder_iteration. rewrite Hruns. reflexivity.
  - intros view c key value co i j st. repeat split.
    + unfold Cache_Put. simpl. unfold SpecCache.put. rewrite !fmap_app.
      reflexivity.
    + apply lookup_insert_eq.
    + intros sl Hsl. apply lookup_insert_ne. congruence.
    + intros Hij Heq. apply app_inv_head in Heq. congruence.
  - intros d0 d layer cas cam hiddenState st Hd Hruns.
    rewrite (TextDecoder_Forward_snoc d0 d layer _ _ _ _ _ _ _ _ _ Hd).
    destruct (TextDecoder_Forward d0 ctx hiddenState pos mask cas cam cache
                opts st) as [[h_i s_i] |]; [| reflexivity].
    unfold TextDecoder_iteration. rewrite Hruns. reflexivity.
  - intros view c d0 d layer cas cam hiddenState st Hd Hruns.
    rewrite (TextDecoder_Forward_snoc (C := SpecCache.impl view) d0 d layer
               _ _ _ _ _ _ _ _ _ Hd).
    destruct (TextDecoder_Forward (C := SpecCache.impl view) d0 ctx
                hiddenState pos mask cas cam c opts st) as [[h_i s_i] |];
      [| reflexivity].
    unfold TextDecoder_iteration. rewrite Hruns. reflexivity.
Qed.

(** *** The cross-attention decoder layer *)


(** C6: in the cross-attention decoder layer each sublayer output is
    multiplied by tanh of its gate before the residual add.  On a backend
    where tanh of a zero tensor is zero, the product of a finite tensor
    with a zero tensor is zero and adding a zero tensor gives the same
    numbers, a layer whose two gates are zero returns the numbers of its
    input hidden state whenever its two sublayer outputs are finite.  Not
    for every input: where the product of a non-finite tensor with a zero
    tensor is NaN and a sum with a NaN term is NaN, as in IEEE 754
    arithmetic, a layer whose two gates are zero returns NaN when one of
    its two sublayer outputs is not finite. *)
Theorem TextCrossAttentionDecoderLayer_gates (an mn : RMSNorm)
    (ca : TextCrossAttention Linear RMSNorm) (ga gm : Tensor)
    (up down gate : Linear) (ctx : Ctx) (h pos : Tensor)
    (mask cas cam : option Tensor) (cache : Cache) (opts : TextModelOptions)
    (s : State) (IsZero Finite IsNaN : Tensor -> Prop)
    (same : Tensor -> Tensor -> Prop) :
  let d := {| cl_AttentionNorm := Some an; cl_CrossAttention := Some ca;
              cl_AttentionGate := Some ga; cl_MLPNorm := Some mn;
              cl_MLP := Some {| Up := Some up; Down := Some down;
                                Gate := Some gate |};
              cl_MLPGate := Some gm |} in
  TextCrossAttentionDecoderLayer_Forward d ctx h pos mask cas cam cache opts s
  = match TextCrossAttention_Forward ca ctx (RMSNorm_apply an ctx h (eps opts))
            cas cache opts s with
    | Returned (attention, s') =>
        let sum := Add (Mul attention ctx (Tanh ga ctx)) ctx h in
        let mlp := spec_feed_forward ctx up down gate
                     (RMSNorm_apply mn ctx sum (eps opts)) in
        Returned (Add (Mul mlp ctx (Tanh gm ctx)) ctx sum, s')
    | Panicked => Panicked
    end
  /\ ((forall g, IsZero g -> IsZero (Tanh g ctx)) ->
      (forall x g, Finite x -> IsZero g -> IsZero (Mul x ctx g)) ->
      (forall z r, IsZero z -> same (Add z ctx r) r) ->
      (forall x y z, same x y -> same y z -> same x z) ->
      IsZero ga -> IsZero gm ->
      forall attention s',
        TextCrossAttention_Forward ca ctx (RMSNorm_apply an ctx h (eps opts))
          cas cache opts s
        = Returned (attention, s') ->
        let sum := Add (Mul attention ctx (Tanh ga ctx)) ctx h in
        Finite attention ->
        Finite (spec_feed_forward ctx up down gate
                  (RMSNorm_apply mn ctx sum (eps opts))) ->
        exists out,
          TextCrossAttentionDecoderLayer_Forward d ctx h pos mask cas cam
            cache opts s
          = Returned (out, s)
          /\ same out h)
  /\ ((forall g, IsZero g -> IsZero (Tanh g ctx)) ->
      (forall x g, ~ Finite x -> IsZero g -> IsNaN (Mul x ctx g)) ->
      (forall x r, IsNaN x -> IsNaN (Add x ctx r)) ->
      (forall x r, IsNaN r -> IsNaN (Add x ctx r)) ->
      IsZero ga -> IsZero gm ->
      forall attention s',
        TextCrossAttention_Forward ca ctx (RMSNorm_apply an ctx h (eps opts))
          cas cache opts s
        = Returned (attention, s') ->
        let sum := Add (Mul attention ctx (Tanh ga ctx)) ctx h in
        ~ Finite attention
        \/ ~ Finite (spec_feed_forward ctx up down gate
                       (RMSNorm_apply mn ctx sum (eps opts))) ->
        exists out,
          TextCrossAttentionDecoderLayer_Forward d ctx h pos mask cas cam
            cache opts s
          = Returned (out, s)
          /\ IsNaN out).
Proof.
  intros d.
  assert (E : TextCrossAttentionDecoderLayer_Forward d ctx h pos mask cas cam
                cache opts s
              = match TextCrossAttention_Forward ca ctx
                        (RMSNorm_apply an ctx h (eps opts)) cas cache opts s with
                | Returned (attention, s') =>
                    let sum := Add (Mul attention ctx (Tanh ga ctx)) ctx h in
                    let mlp := spec_feed_forward ctx up down gate
                                 (RMSNorm_apply mn ctx sum (eps opts)) in
                    Returned (Add (Mul mlp ctx (Tanh gm ctx)) ctx sum, s')
                | Panicked => Panicked
                end).
  { unfold TextCrossAttentionDecoderLayer_Forward. fwd.
    case_call Eca. unfold TextMLP_Forward. fwd. reflexivity. }
  split; [exact E | split].
  - intros Htanh Hmul Hadd Htrans Hga Hgm attention s' Hca sum Hfa Hfm.
    rewrite E, Hca. cbv zeta.
    apply TextCrossAttention_Forward_state in Hca. subst s'.
    eexists. split; [reflexivity |].
    apply Htrans with sum; apply Hadd; apply Hmul; auto.
  - intros Htanh Hmul Haddl Haddr Hga Hgm attention s' Hca sum Hnf.
    rewrite E, Hca. cbv zeta.
    apply TextCrossAttention_Forward_state in Hca. subst s'.
    eexists. split; [reflexivity |].
    destruct Hnf as [Hnf | Hnf].
    + apply Haddr, Haddl, Hmul; auto.
    + apply Haddl, Hmul; auto.
Qed.

(** *** The cross-attention mask *)

(** A decoder layer returns the same for any two cross-attention masks. *)
Lemma TextDecoderLayer_Forward_mask
    (layer : TextDecoderLayer Tensor Linear RMSNorm) (ctx : Ctx)
    (h pos : Tensor) (mask cas cam1 cam2 : option Tensor) (cache : Cache)
    (opts : TextModelOptions) (s : State) :
  TextDecoderLayer_Forward layer ctx h pos mask cas cam1 cache opts s
  = TextDecoderLayer_Forward layer ctx h pos mask cas cam2 cache opts s.
Proof. destruct layer; reflexivity. Qed.

Lemma TextDecoder_loop_mask
    (layers : list (TextDecoderLayer Tensor Linear RMSNorm)) (ctx : Ctx)
    (pos : Tensor) (mask cas cam1 cam2 : option Tensor) (cache : Cache)
    (opts : TextModelOptions) :
  forall (i : nat) (h : Tensor) (s : State),
    TextDecoder_loop ctx pos mask cas cam1 cache opts layers i h s
    = TextDecoder_loop ctx pos mask cas cam2 cache opts layers i h s.
Proof.
  induction layers as [| layer layers IH]; intros i h s; [reflexivity |].
  simpl. unfold bind, TextDecoder_iteration.
  destruct (TextDecoder_runs cas opts i).
  - unfold bind. destruct (Cache_Sub cache i s) as [[sub s1] |]; [| reflexivity].
    rewrite (TextDecoderLayer_Forward_mask layer ctx h pos mask cas cam1 cam2).
    destruct (TextDecoderLayer_Forward layer ctx h pos mask cas cam2 sub opts s1)
      as [[h' s'] |]; [apply IH | reflexivity].
  - unfold ret. apply IH.
Qed.

(** C10: two forward calls of the text model that differ only in the
    cross-attention mask (nil or not) have the same outcome: the same
    logits and the same cache afterwards, or a panic in both; and so have
    two calls of a cross-attention decoder layer, which is handed the mask
    and never reads it. *)
Theorem TextModel_Forward_mask_unused
    (m : TextModel Tensor Linear RMSNorm Embedding) (ctx : Ctx)
    (inputIDs positionIDs : Tensor) (mask cas cam1 cam2 : option Tensor)
    (cache : Cache) (s : State) :
  TextModel_Forward m ctx inputIDs positionIDs mask cas cam1 cache s
  = TextModel_Forward m ctx inputIDs positionIDs mask cas cam2 cache s
  /\ forall d h pos opts,
       TextCrossAttentionDecoderLayer_Forward d ctx h pos mask cas cam1 cache
         opts s
       = TextCrossAttentionDecoderLayer_Forward d ctx h pos mask cas cam2
           cache opts s.
Proof.
  split; [| reflexivity].
  unfold TextModel_Forward, TextDecoder_Forward, bind.
  destruct (nn_Embedding_Forward (TokenEmbedding m) ctx inputIDs s)
    as [[h s1] |]; [| reflexivity].
  rewrite (TextDecoder_loop_mask (Layers (Transformer m)) ctx positionIDs mask
             cas cam1 cam2 cache (Opts m) 0%nat h s1).
  reflexivity.
Qed.

(** *** The decoder's dispatch *)

Lemma TextMLP_Forward_state (mlp : TextMLP Linear) (ctx : Ctx) (x : Tensor)
    (opts : TextModelOptions) (s s' : State) (r : Tensor) :
  TextMLP_Forward mlp ctx x opts s = Returned (r, s') -> s' = s.
Proof.
  unfold TextMLP_Forward, nn_Linear_Forward.
  intros H. inv_fwd. reflexivity.
Qed.

(** A self-attention call that returns has logged one [Put], on its own
    handle. *)
Lemma TextSelfAttention_Forward_calls (sa : TextSelfAttention Linear)
    (ctx : Ctx) (h pos : Tensor) (mask : option Tensor) (cache : Cache)
    (opts : TextModelOptions) (s s' : State) (r : Tensor) :
  TextSelfAttention_Forward sa ctx h pos mask cache opts s = Returned (r, s') ->
  exists key value,
    calls s' = calls s ++ [CallPut cache key value (Options cache)].
Proof.
  unfold TextSelfAttention_Forward, nn_Linear_Forward.
  intros H. inv_fwd.
  match goal with
  | HPut : Cache_Put _ _ _ _ _ _ = Returned _ |- _ =>
      apply Cache_Put_Returned in HPut
  end.
  match goal with
  | kv : (Tensor * Tensor)%type |- _ => destruct kv as [keys values]
  end.
  inv_fwd. eexists _, _. eassumption.
Qed.

Lemma Sub_calls_Put (cs : list (CacheCall Tensor Cache CacheOptions))
    (c : Cache) (key value : Tensor) (o : CacheOptions) :
  Sub_calls (cs ++ [CallPut c key value o]) = Sub_calls cs.
Proof. unfold Sub_calls. rewrite omap_app. simpl. apply app_nil_r. Qed.

Lemma Sub_calls_Sub (cs : list (CacheCall Tensor Cache CacheOptions))
    (c : Cache) (i : nat) :
  Sub_calls (cs ++ [CallSub c i]) = Sub_calls cs ++ [(c, i)].
Proof. unfold Sub_calls. rewrite omap_app. reflexivity. Qed.

Lemma Cache_Sub_Returned (c sub : Cache) (i : nat) (s s' : State) :
  Cache_Sub c i s = Returned (sub, s') ->
  calls s' = calls s ++ [CallSub c i].
Proof.
  unfold Cache_Sub.
  destruct (Sub c i (store s)) as [[sub' store'] |]; [| discriminate].
  intros [= _ <-]. reflexivity.
Qed.

(** No decoder layer calls [Sub]. *)
Lemma TextDecoderLayer_Forward_Sub_calls
    (layer : TextDecoderLayer Tensor Linear RMSNorm) (ctx : Ctx)
    (h pos : Tensor) (mask cas cam : option Tensor) (cache : Cache)
    (opts : TextModelOptions) (s s' : State) (r : Tensor) :
  TextDecoderLayer_Forward layer ctx h pos mask cas cam cache opts s
  = Returned (r, s') ->
  Sub_calls (calls s') = Sub_calls (calls s).
Proof.
  intros H. destruct layer as [d | d]; unfold TextDecoderLayer_Forward in H.
  - unfold TextSelfAttentionDecoderLayer_Forward, nn_RMSNorm_Forward in H.
    inv_fwd.
    match goal with
    | Hm : TextMLP_Forward _ _ _ _ _ = Returned _ |- _ =>
        apply TextMLP_Forward_state in Hm; subst
    end.
    match goal with
    | Hs : TextSelfAttention_Forward _ _ _ _ _ _ _ _ = Returned _ |- _ =>
        apply TextSelfAttention_Forward_calls in Hs as (key & value & ->)
    end.
    apply Sub_calls_Put.
  - unfold TextCrossAttentionDecoderLayer_Forward, nn_RMSNorm_Forward in H.
    inv_fwd.
    match goal with
    | Hm : TextMLP_Forward _ _ _ _ _ = Returned _ |- _ =>
        apply TextMLP_Forward_state in Hm; subst
    end.
    match goal with
    | Hc : TextCrossAttention_Forward _ _ _ _ _ _ _ = Returned _ |- _ =>
        apply TextCrossAttention_Forward_state in Hc; subst
    end.
    reflexivity.
Qed.

(** The [Sub] calls of a run of the loop from index [i]: on the decoder's
    handle, at the indices the guard lets through, in order. *)
Lemma TextDecoder_loop_Sub_calls
    (layers : list (TextDecoderLayer Tensor Linear RMSNorm)) (ctx : Ctx)
    (pos : Tensor) (mask cas cam : option Tensor) (cache : Cache)
    (opts : TextModelOptions) :
  forall (i : nat) (h h' : Tensor) (s s' : State),
    TextDecoder_loop ctx pos mask cas cam cache opts layers i h s
    = Returned (h', s') ->
    Sub_calls (calls s')
    = Sub_calls (calls s)
      ++ map (pair cache)
           (List.filter (TextDecoder_runs cas opts) (seq i (length layers))).
Proof.
  induction layers as [| layer layers IH]; intros i h h' s s'.
  - simpl. unfold ret. intros [= _ <-]. symmetry. apply app_nil_r.
  - simpl. intros H. apply bind_Returned in H as (h1 & s1 & Hit & Hloop).
    apply IH in Hloop. rewrite Hloop. clear Hloop.
    unfold TextDecoder_iteration in Hit.
    destruct (TextDecoder_runs cas opts i) eqn:Eruns.
    + apply bind_Returned in Hit as (sub & s0 & HSub & Hlayer).
      apply TextDecoderLayer_Forward_Sub_calls in Hlayer. rewrite Hlayer.
      apply Cache_Sub_Returned in HSub. rewrite HSub, Sub_calls_Sub.
      simpl. rewrite <- app_assoc. reflexivity.
    + apply ret_Returned in Hit as [-> ->]. reflexivity.
Qed.

Lemma TextDecoder_runs_iff (cas : option Tensor) (opts : TextModelOptions)
    (i : nat) :
  Z.of_nat i < 2 ^ 32 ->
  TextDecoder_runs cas opts i = true
  <-> (~ In (Z.of_nat i) (crossAttentionLayers opts) \/ cas <> None).
Proof.
  intros Hi. unfold TextDecoder_runs. rewrite (uint32_small i Hi).
  rewrite orb_true_iff, negb_true_iff. split.
  - intros [Hc | Hn].
    + left. intros Hin. apply slices_Contains_In in Hin.
      rewrite Hin in Hc. discriminate.
    + right. destruct cas; [discriminate | simpl in Hn; discriminate].
  - intros [Hnin | Hcas].
    + left. destruct (slices_Contains _ _) eqn:E; [| reflexivity].
      apply slices_Contains_In in E. contradiction.
    + right. destruct cas; [reflexivity | contradiction].
Qed.

(** C1: in a decoder forward call, layer [i] is executed exactly when [i]
    is not in the cross-attention index set or a cross-modal state was
    supplied; a skipped iteration returns the hidden state it received,
    does not panic, and leaves the cache store and the log of cache calls
    untouched, so [Sub(i)] is not called; an executed iteration calls
    [Sub(i)] and then the layer; and a call that returns has made its [Sub]
    calls on the decoder's handle, exactly at the executed indices, in
    ascending order.  Layer by layer: a decoder without layers returns the
    hidden state it was given; and the forward call of a decoder whose last
    layer, at index [i], follows the layers of [d0] is the forward call of
    [d0] and then, on the hidden state and the state that call returned,
    [Sub(i)] and the forward call of layer [i] when [i] is not in the index
    set or a state was supplied, and nothing at all when [i] is in the index
    set and no state was supplied: the call then returns what the call of
    [d0] returned. *)
Theorem TextDecoder_Forward_dispatch
    (d : TextDecoder Tensor Linear RMSNorm) (ctx : Ctx) (h pos : Tensor)
    (mask cas cam : option Tensor) (cache : Cache) (opts : TextModelOptions)
    (s : State) :
  Z.of_nat (length (Layers d)) <= 2 ^ 32 ->
  (forall i, (i < length (Layers d))%nat ->
     TextDecoder_runs cas opts i = true
     <-> (~ In (Z.of_nat i) (crossAttentionLayers opts) \/ cas <> None))
  /\ (forall i layer hiddenState st,
        TextDecoder_runs cas opts i = false ->
        TextDecoder_iteration ctx pos mask cas cam cache opts i layer
          hiddenState st
        = Returned (hiddenState, st))
  /\ (forall i layer hiddenState st,
        TextDecoder_runs cas opts i = true ->
        TextDecoder_iteration ctx pos mask cas cam cache opts i layer
          hiddenState st
        = (sub <- Cache_Sub cache i ;;
           TextDecoderLayer_Forward layer ctx hiddenState pos mask cas cam
             sub opts) st)
  /\ (forall h' s',
        TextDecoder_Forward d ctx h pos mask cas cam cache opts s
        = Returned (h', s') ->
        Sub_calls (calls s')
        = Sub_calls (calls s)
          ++ map (pair cache)
               (List.filter (TextDecoder_runs cas opts)
                  (seq 0 (length (Layers d)))))
  /\ (Layers d = [] ->
      TextDecoder_Forward d ctx h pos mask cas cam cache opts s
      = Returned (h, s))
  /\ (forall (d0 : TextDecoder Tensor Linear RMSNorm) layer,
        Layers d = Layers d0 ++ [layer] ->
        let i := length (Layers d0) in
        match TextDecoder_Forward d0 ctx h pos mask cas cam cache opts s with
        | Returned (h_i, s_i) =>
            ((~ In (Z.of_nat i) (crossAttentionLayers opts) \/ cas <> None) ->
             TextDecoder_Forward d ctx h pos mask cas cam cache opts s
             = match Cache_Sub cache i s_i with
               | Returned (sub, s_sub) =>
                   TextDecoderLayer_Forward layer ctx h_i pos mask cas cam sub
                     opts s_sub
               | Panicked => Panicked
               end)
            /\ (In (Z.of_nat i) (crossAttentionLayers opts) -> cas = None ->
                TextDecoder_Forward d ctx h pos mask cas cam cache opts s
                = Returned (h_i, s_i))
        | Panicked =>
            TextDecoder_Forward d ctx h pos mask cas cam cache opts s
            = Panicked
        end).
Proof.
  intros Hlen. split; [| split; [| split; [| split; [| split]]]].
  - intros i Hi. apply TextDecoder_runs_iff. lia.
  - intros i layer hiddenState st Hruns.
    unfold TextDecoder_iteration. rewrite Hruns. reflexivity.
  - intros i layer hiddenState st Hruns.
    unfold TextDecoder_iteration. rewrite Hruns. reflexivity.
  - intros h' s' Hrun. unfold TextDecoder_Forward in Hrun.
    exact (TextDecoder_loop_Sub_calls _ _ _ _ _ _ _ _ _ _ _ _ _ Hrun).
  - intros Hnil. unfold TextDecoder_Forward. rewrite Hnil. reflexivity.
  - intros d0 layer Hd i.
    rewrite (TextDecoder_Forward_snoc d0 d layer _ _ _ _ _ _ _ _ _ Hd).
    destruct (TextDecoder_Forward d0 ctx h pos mask cas cam cache opts s)
      as [[h_i s_i] |]; [| reflexivity].
    assert (Hi : Z.of_nat i < 2 ^ 32).
    { rewrite Hd, length_app in Hlen. simpl in Hlen. subst i. lia. }
    pose proof (TextDecoder_runs_iff cas opts i Hi) as Hiff.
    fold i. unfold TextDecoder_iteration. split.
    + intros Hex. apply Hiff in Hex. rewrite Hex. reflexivity.
    + intros Hin Hcas.
      destruct (TextDecoder_runs cas opts i) eqn:Eruns; [| reflexivity].
      destruct (proj1 Hiff eq_refl) as [Hnin | Hsome]; contradiction.
Qed.

(** *** Construction *)

Lemma fold_left_append {X Y} (f : X -> Y) (l : list X) (acc : list Y) :
  fold_left (fun acc i => acc ++ [f i]) l acc = acc ++ map f l.
Proof.
  revert acc. induction l as [| a l IH]; intros acc; simpl.
  - symmetry. apply app_nil_r.
  - rewrite IH, <- app_assoc. reflexivity.
Qed.

(** C2, as the code has it: construction validates nothing and cannot
    fail.  For every configuration [newTextModel] returns a model whose
    options are the configured values as read, and whose decoder has one
    layer per index below [block_count], a cross-attention layer exactly at
    the indices the configured list contains; a zero head count shows only
    at forward time, where every attention call panics. *)
Theorem newTextModel_validates_nothing (c : Config) :
  let m : TextModel Tensor Linear RMSNorm Embedding := newTextModel c in
  Opts m
  = {| RopeFactors := None;
       hiddenSize := int64 (Uint c "embedding_length" []);
       numHeads := int64 (Uint c "attention.head_count" []);
       numKVHeads := int64 (Uint c "attention.head_count_kv" []);
       eps := Float c "attention.layer_norm_rms_epsilon" [];
       ropeBase := Float c "rope.freq_base" [];
       ropeScale := Float c "rope.freq_scale" [1%float];
       ropeDim := Uint c "rope.dimension_count" [];
       crossAttentionLayers := Uints c "attention.cross_attention_layers" [] |}
  /\ Layers (Transformer m)
     = map (newTextModel_layer c) (seqZ 0 (Uint c "block_count" []))
  /\ (forall i,
        is_cross_attention_layer
          (newTextModel_layer (Tensor := Tensor) (Linear := Linear)
             (RMSNorm := RMSNorm) c i) = true
        <-> In i (Uints c "attention.cross_attention_layers" []))
  /\ (numHeads (Opts m) = 0 ->
      (forall sa ctx h pos mask (cache : Cache) (s : State),
         TextSelfAttention_Forward sa ctx h pos mask cache (Opts m) s
         = Panicked)
      /\ (forall ca ctx h cas (cache : Cache) (s : State),
            TextCrossAttention_Forward ca ctx h cas cache (Opts m) s
            = Panicked)).
Proof.
  intros m. split; [reflexivity | split; [| split]].
  - unfold m, newTextModel. simpl. apply (fold_left_append _ _ []).
  - intros i. unfold newTextModel_layer.
    rewrite <- slices_Contains_In.
    destruct (slices_Contains _ i); simpl; split; congruence.
  - intros H0. split; intros.
    + unfold TextSelfAttention_Forward, div64. rewrite H0. reflexivity.
    + unfold TextCrossAttention_Forward, div64. rewrite H0. reflexivity.
Qed.

(** A model built by [newTextModel] runs its layers by kind: a
    self-attention layer always, a cross-attention layer exactly when a
    cross-modal state is supplied; so no cross-attention layer is ever
    called with a nil state. *)
Theorem newTextModel_dispatch_by_kind (c : Config) (cas : option Tensor)
    (i : nat) (layer : TextDecoderLayer Tensor Linear RMSNorm) :
  Uint c "block_count" [] <= 2 ^ 32 ->
  let m : TextModel Tensor Linear RMSNorm Embedding := newTextModel c in
  Layers (Transformer m) !! i = Some layer ->
  TextDecoder_runs cas (Opts m) i
  = if is_cross_attention_layer layer then not_nil cas else true.
Proof.
  intros Hcount m Hi.
  assert (Hlayers : Layers (Transformer m)
                    = map (newTextModel_layer c)
                        (seqZ 0 (Uint c "block_count" []))).
  { unfold m, newTextModel. simpl. apply (fold_left_append _ _ []). }
  rewrite Hlayers in Hi. change (map ?f ?l) with (f <$> l) in Hi.
  rewrite list_lookup_fmap in Hi.
  destruct (seqZ 0 (Uint c "block_count" []) !! i) as [z |] eqn:Ez;
    [| discriminate].
  apply lookup_seqZ in Ez as [-> Hlt]. simpl in Hi.
  injection Hi as <-. rewrite Z.add_0_l.
  unfold TextDecoder_runs. rewrite uint32_small by lia.
  unfold newTextModel_layer, m. simpl.
  destruct (slices_Contains _ (Z.of_nat i)); reflexivity.
Qed.

End Properties.

(** ** Concrete runs *)

Section Runs.
Import Graph Example.

(** A configuration with an invalid geometry and a malformed index list is
    constructed all the same: [newTextModel] returns the model below, and a
    self-attention call with its options returns, with head dimension
    10 / 3 = 3. *)
Lemma newTextModel_accepts_bad_config :
  (~ spec_valid_geometry 10 3 2)
  /\ (~ spec_valid_index_set 2 [1; 1; 7])
  /\ newTextModel (Tensor := Node) (Linear := string * Z) (RMSNorm := string)
       (Embedding := string * Z) bad_config
     = {| TokenEmbedding := None;
          Transformer :=
            {| Layers :=
                 [SelfAttentionDecoderLayer
                    {| sl_AttentionNorm := None; sl_SelfAttention := None;
                       sl_MLPNorm := None; sl_MLP := None |};
                  CrossAttentionDecoderLayer
                    {| cl_AttentionNorm := None; cl_CrossAttention := None;
                       cl_AttentionGate := None; cl_MLPNorm := None;
                       cl_MLP := None; cl_MLPGate := None |}] |};
          OutputNorm := None;
          Output := None;
          Opts :=
            {| RopeFactors := None; hiddenSize := 10; numHeads := 3;
               numKVHeads := 2; eps := 0%float; ropeBase := 0%float;
               ropeScale := 1%float; ropeDim := 64;
               crossAttentionLayers := [1; 1; 7] |} |}
  /\ exists keys values s',
       TextSelfAttention_Forward attention tt hidden positions None (root 0)
         (Opts (newTextModel (Tensor := Node) (Linear := string * Z)
                  (RMSNorm := string) (Embedding := string * Z) bad_config))
         empty_state
       = Returned
           (spec_attend tt ("attn_output", 8) (spec_layout_v tt values)
              (spec_scores tt (spec_layout_qk tt keys)
                 (spec_layout_qk tt
                    (NRope (NReshape (NLinear ("attn_q", 8) hidden) [3; 3; 4])
                       positions None 64 0%float 1%float))
                 3 None)
              10 4,
            s').
Proof.
  split; [| split; [| split]].
  - intros (_ & _ & H & _). vm_compute in H. discriminate.
  - intros [H _]. apply NoDup_cons in H as [H _]. apply H. constructor.
  - reflexivity.
  - eexists _, _, _. vm_compute. reflexivity.
Qed.

(** The guard of the example decoder, without and with vision features. *)
Example runs_text_only :
  map (TextDecoder_runs (Tensor := Node) None opts) [0; 1]%nat = [true; false].
Proof. reflexivity. Qed.

Example runs_with_vision :
  map (TextDecoder_runs (Some vision) opts) [0; 1]%nat = [true; true].
Proof. reflexivity. Qed.

(** The end-to-end scenario of the spec: layer 0 self-attention, layer 1
    cross-attention, four positions.  Without vision features the decoder
    does what layer 0 alone does on slice 0; with them it returns something
    else. *)
Example decoder_text_only :
  TextDecoder_Forward decoder tt hidden positions (Some causal) None None
    (root 0) opts empty_state
  = (sub <- Cache_Sub (root 0) 0 ;;
     TextSelfAttentionDecoderLayer_Forward self_layer tt hidden positions
       (Some causal) None None sub opts) empty_state.
Proof. vm_compute. reflexivity. Qed.

Example decoder_with_vision :
  TextDecoder_Forward decoder tt hidden positions (Some causal) (Some vision)
    None (root 0) opts empty_state
  <> TextDecoder_Forward decoder tt hidden positions (Some causal) None None
       (root 0) opts empty_state.
Proof. intros H. vm_compute in H. discriminate H. Qed.

(** The model's logits with and without a cross-attention mask. *)
Example model_with_vision_mask :
  TextModel_Forward model tt tokens positions (Some causal) (Some vision)
    (Some vision_mask) (root 0) empty_state
  = TextModel_Forward model tt tokens positions (Some causal) (Some vision)
      None (root 0) empty_state.
Proof. vm_compute. reflexivity. Qed.

(** The scale of a head of dimension 128, and of dimension 4. *)
Example spec_scale_128 : spec_scale 128 = 0x1.6a09e667f3bccp-4%float.
Proof. vm_compute. reflexivity. Qed.

Example spec_scale_4 : spec_scale 4 = 0.5%float.
Proof. vm_compute. reflexivity. Qed.

(** Witness of the dispatch by kind: layer 1 of the model built from the
    example configuration is a cross-attention layer, and runs with
    vision features. *)
Lemma newTextModel_dispatch_by_kind_witness :
  Uint bad_config "block_count" [] <= 2 ^ 32
  /\ TextDecoder_runs (Some vision)
       (Opts (newTextModel (Tensor := Node) (Linear := string * Z)
                (RMSNorm := string) (Embedding := string * Z) bad_config))
       1
     = true.
Proof.
  assert (Hcount : Uint bad_config "block_count" [] <= 2 ^ 32)
    by (vm_compute; discriminate).
  split; [exact Hcount |].
  exact (newTextModel_dispatch_by_kind (Embedding := string * Z) bad_config
           (Some vision) 1 _ Hcount eq_refl).
Defined.

(** Witness of C1: the example decoder has two layers, the second one a
    cross-attention layer at index 1 of the index set; run without vision
    features it returns what its first layer alone returns, having called
    [Sub] on the root handle at index 0 only. *)
Lemma TextDecoder_Forward_dispatch_witness :
  Z.of_nat (length (Layers decoder)) <= 2 ^ 32
  /\ exists h' s',
       TextDecoder_Forward decoder tt hidden positions (Some causal) None None
         (root 0) opts empty_state
       = Returned (h', s')
       /\ Sub_calls (calls s') = [(root 0, 0%nat)]
       /\ TextDecoder_Forward
            {| Layers := [SelfAttentionDecoderLayer self_layer] |} tt hidden
            positions (Some causal) None None (root 0) opts empty_state
          = Returned (h', s').
Proof.
  assert (Hlen : Z.of_nat (length (Layers decoder)) <= 2 ^ 32) by (simpl; lia).
  split; [exact Hlen |].
  destruct (TextDecoder_Forward_dispatch decoder tt hidden positions
              (Some causal) None None (root 0) opts empty_state Hlen)
    as (_ & _ & _ & Hsubs & _ & Hsnoc).
  specialize (Hsnoc {| Layers := [SelfAttentionDecoderLayer self_layer] |}
                (CrossAttentionDecoderLayer cross_layer) eq_refl).
  cbv zeta in Hsnoc.
  destruct (TextDecoder_Forward
              {| Layers := [SelfAttentionDecoderLayer self_layer] |} tt hidden
              positions (Some causal) None None (root 0) opts empty_state)
    as [[h_i s_i] |] eqn:E; [| vm_compute in E; discriminate].
  destruct Hsnoc as [_ Hskip].
  specialize (Hskip (or_introl eq_refl) eq_refl).
  exists h_i, s_i. split; [exact Hskip |]. split; [| reflexivity].
  exact (Hsubs h_i s_i Hskip).
Defined.

(** Witness of C3: the example attention unit has 4 heads; on a first call
    with a causal mask softmax is given [key.Mulmat(query)], scaled by
    [1/sqrt(2)], plus the mask. *)
Lemma TextSelfAttention_scores_witness :
  numHeads opts <> 0
  /\ exists keys values s',
       Cache_Put (root 0) tt key0 value0 0 empty_state
       = Returned ((keys, values), s')
       /\ TextSelfAttention_Forward attention tt hidden positions
            (Some causal) (root 0) opts empty_state
          = Returned
              (NLinear ("attn_output", 8)
                 (NReshape
                    (NContiguous
                       (NPermute
                          (NMulmat
                             (NContiguous (NPermute values [1; 2; 0; 3]))
                             (NSoftmax
                                (NAdd
                                   (NScale
                                      (NMulmat
                                         (NContiguous
                                            (NPermute keys [0; 2; 1; 3]))
                                         (NContiguous
                                            (NPermute query0 [0; 2; 1; 3])))
                                      (1 / PrimFloat.sqrt 2)%float)
                                   causal)))
                          [0; 2; 1; 3]))
                    [8; 4]),
               s').
Proof.
  assert (Hn : numHeads opts <> 0) by (simpl; lia).
  split; [exact Hn |].
  eexists _, _, _. split; [reflexivity |].
  exact (proj2 (TextSelfAttention_scores ("attn_q", 8) ("attn_k", 4)
                  ("attn_v", 4) ("attn_output", 8) tt hidden positions
                  (Some causal) (root 0) opts empty_state Hn _ _ _ eq_refl)).
Defined.

(** Witness of C8: the example unit hands the cache the rotated key of
    shape (2, 2, 4) and the unrotated value of shape (2, 2, 4), and scores
    the rotated query of shape (2, 4, 4). *)
Lemma TextSelfAttention_projections_witness :
  numHeads opts <> 0
  /\ exists keys values s',
       calls s' = [CallPut (root 0) key0 value0 0]
       /\ TextSelfAttention_Forward attention tt hidden positions
            (Some causal) (root 0) opts empty_state
          = Returned
              (spec_attend tt ("attn_output", 8) (spec_layout_v tt values)
                 (spec_scores tt (spec_layout_qk tt keys)
                    (spec_layout_qk tt query0) 2 (Some causal))
                 8 4,
               s').
Proof.
  assert (Hn : numHeads opts <> 0) by (simpl; lia).
  split; [exact Hn |].
  destruct (TextSelfAttention_projections ("attn_q", 8) ("attn_k", 4)
              ("attn_v", 4) ("attn_output", 8) tt hidden positions
              (Some causal) (root 0) opts empty_state Hn) as [Hrun Hcalls].
  eexists _, _, _. split; [| exact Hrun].
  exact (Hcalls _ _ Hrun).
Defined.

(** Witness of C4: on a slice that holds an earlier key and value, the
    example unit scores against the views of both the earlier and the
    current tensors, and the slice then holds both pairs; and in the
    decoder of two self-attention layers, called with vision features, the
    second layer runs on slice 1 of the root handle, on what the first
    layer returned. *)
Lemma TextSelfAttention_cache_witness :
  numHeads opts <> 0
  /\ (exists s',
        TextSelfAttention_Forward attention tt hidden positions (Some causal)
          slice0 opts later_state
        = Returned
            (spec_attend tt ("attn_output", 8)
               (spec_layout_v tt (NCacheView [earlier_value; value0]))
               (spec_scores tt
                  (spec_layout_qk tt (NCacheView [earlier_key; key0]))
                  (spec_layout_qk tt query0) 2 (Some causal))
               8 4,
             s')
        /\ store s' !! [0%nat]
           = Some [(earlier_key, earlier_value); (key0, value0)])
  /\ (exists h1 s1,
        TextDecoder_Forward
          {| Layers := [SelfAttentionDecoderLayer self_layer] |} tt hidden
          positions (Some causal) (Some vision) None (root 0) opts empty_state
        = Returned (h1, s1)
        /\ TextDecoder_Forward Example2.self_decoder tt hidden positions
             (Some causal) (Some vision) None (root 0) opts empty_state
           = TextDecoderLayer_Forward (SelfAttentionDecoderLayer self_layer)
               tt h1 positions (Some causal) (Some vision) None
               {| SpecCache.slice := [1%nat]; SpecCache.options := 0 |} opts
               {| store := store s1;
                  calls := calls s1 ++ [CallSub (root 0) 1%nat] |}).
Proof.
  assert (Hn : numHeads opts <> 0) by (simpl; lia).
  split; [exact Hn |]. split.
  - eexists. split.
    + exact (proj1 (TextSelfAttention_cache ("attn_q", 8) ("attn_k", 4)
                      ("attn_v", 4) ("attn_output", 8) tt hidden positions
                      (Some causal) slice0 opts later_state) Hn _ _ _ eq_refl).
    + vm_compute. reflexivity.
  - pose proof (proj2 (proj2 (proj2 (proj2
                  (TextSelfAttention_cache ("attn_q", 8) ("attn_k", 4)
                     ("attn_v", 4) ("attn_output", 8) tt hidden positions
                     (Some causal) slice0 opts later_state))))
                  (fun _ ts => NCacheView ts) (root 0)
                  {| Layers := [SelfAttentionDecoderLayer self_layer] |}
                  Example2.self_decoder (SelfAttentionDecoderLayer self_layer)
                  (Some vision) None hidden empty_state eq_refl eq_refl)
      as Hsnoc.
    destruct (TextDecoder_Forward
                {| Layers := [SelfAttentionDecoderLayer self_layer] |} tt
                hidden positions (Some causal) (Some vision) None (root 0)
                opts empty_state) as [[h1 s1] |] eqn:E;
      [| vm_compute in E; discriminate].
    exists h1, s1. split; [reflexivity | exact Hsnoc].
Defined.

(** Witness of C5: the example cross-attention unit, given vision features
    of 3 tokens in 1 tile, returns with the store as it was. *)
Lemma TextCrossAttention_Forward_witness :
  numHeads opts <> 0
  /\ exists attention,
       TextCrossAttention_Forward cross_attention tt hidden (Some vision)
         (root 0) opts later_state
       = Returned (attention, later_state)
       /\ attention
          = spec_attend tt ("cross_attn_o_proj", 8)
              (spec_layout_v tt
                 (NReshape (NLinear ("cross_attn_v_proj", 4) vision) [2; 2; 3]))
              (NScale
                 (NMulmat
                    (spec_layout_qk tt
                       (NRMSNorm "cross_attn_k_norm"
                          (NReshape (NLinear ("cross_attn_k_proj", 4) vision)
                             [2; 2; 3])
                          0x1p-20%float))
                    (spec_layout_qk tt
                       (NRMSNorm "cross_attn_q_norm"
                          (NReshape (NLinear ("cross_attn_q_proj", 8) hidden)
                             [2; 4; 4])
                          0x1p-20%float)))
                 (1 / PrimFloat.sqrt 2)%float)
              8 4.
Proof.
  assert (Hn : numHeads opts <> 0) by (simpl; lia).
  split; [exact Hn |].
  eexists. split; [| reflexivity].
  exact (proj1 (TextCrossAttention_Forward_spec "cross_attn_q_norm"
                  "cross_attn_k_norm" ("cross_attn_q_proj", 8)
                  ("cross_attn_k_proj", 4) ("cross_attn_v_proj", 4)
                  ("cross_attn_o_proj", 8) tt hidden vision (root 0) opts
                  later_state Hn)).
Defined.

End Runs.

(** ** Binary64 arithmetic at zero, infinity and NaN *)

Lemma SFcompare_refl (s : bool) (m : positive) (e : Z) :
  SFcompare (S754_finite s m e) (S754_finite s m e) = Some Eq.
Proof.
  simpl. rewrite Z.compare_refl.
  replace (Pos.compare_cont Eq m m) with Eq
    by (symmetry; apply Pos.compare_cont_refl).
  destruct s; reflexivity.
Qed.

Lemma is_zero_spec (x : float) :
  is_zero x = match Prim2SF x with S754_zero _ => true | _ => false end.
Proof.
  unfold is_zero. rewrite FloatAxioms.eqb_spec.
  change (Prim2SF zero) with (S754_zero false).
  unfold SFeqb. destruct (Prim2SF x) as [[] | [] | | [] m e]; reflexivity.
Qed.

Lemma is_nan_spec (x : float) :
  is_nan x = match Prim2SF x with S754_nan => true | _ => false end.
Proof.
  unfold is_nan. rewrite FloatAxioms.eqb_spec. unfold SFeqb.
  destruct (Prim2SF x) as [[] | [] | | s m e]; try reflexivity.
  rewrite SFcompare_refl. reflexivity.
Qed.

Lemma is_finite_spec (x : float) :
  is_finite x
  = match Prim2SF x with
    | S754_zero _ | S754_finite _ _ _ => true
    | _ => false
    end.
Proof.
  unfold is_finite, is_infinity.
  rewrite is_nan_spec, FloatAxioms.eqb_spec, abs_spec.
  change (Prim2SF infinity) with (S754_infinity false).
  unfold SFeqb. destruct (Prim2SF x) as [[] | [] | | [] m e]; reflexivity.
Qed.

(** A zero is [+0] or [-0]. *)
Lemma is_zero_cases (g : float) :
  is_zero g = true -> g = 0%float \/ g = (-0)%float.
Proof.
  rewrite is_zero_spec.
  destruct (Prim2SF g) as [s | | |] eqn:E; try discriminate. intros _.
  destruct s; [right | left]; apply Prim2SF_inj; rewrite E; reflexivity.
Qed.

(** A finite number times a zero is a zero. *)
Lemma mul_finite_zero (x g : float) :
  is_finite x = true -> is_zero g = true -> is_zero (x * g) = true.
Proof.
  rewrite is_finite_spec, !is_zero_spec, mul_spec. unfold SF64mul.
  destruct (Prim2SF x), (Prim2SF g); simpl; congruence.
Qed.

(** An infinity or a NaN times a zero is NaN. *)
Lemma mul_not_finite_zero (x g : float) :
  is_finite x = false -> is_zero g = true -> is_nan (x * g) = true.
Proof.
  rewrite is_finite_spec, is_zero_spec, is_nan_spec, mul_spec.
  unfold SF64mul.
  destruct (Prim2SF x), (Prim2SF g); simpl; congruence.
Qed.

(** A zero plus [r] is [r], or a zero when [r] is one. *)
Lemma add_zero_l (z r : float) :
  is_zero z = true -> Binary64.same (z + r) r.
Proof.
  unfold Binary64.same. rewrite !is_zero_spec. intros Hz.
  pose proof (add_spec z r) as E. unfold SF64add in E.
  destruct (Prim2SF z) as [sz | | |] eqn:Ez; try discriminate.
  destruct (Prim2SF r) as [sr | sr | | sr mr er] eqn:Er.
  - right. rewrite E. split; [| reflexivity]. destruct sz, sr; reflexivity.
  - left. apply Prim2SF_inj. rewrite E, Er. reflexivity.
  - left. apply Prim2SF_inj. rewrite E, Er. reflexivity.
  - left. apply Prim2SF_inj. rewrite E, Er. reflexivity.
Qed.

Lemma add_nan_l (x r : float) : is_nan x = true -> is_nan (x + r) = true.
Proof.
  rewrite !is_nan_spec, add_spec. unfold SF64add.
  destruct (Prim2SF x), (Prim2SF r); simpl; congruence.
Qed.

Lemma add_nan_r (x r : float) : is_nan r = true -> is_nan (x + r) = true.
Proof.
  rewrite !is_nan_spec, add_spec. unfold SF64add.
  destruct (Prim2SF x), (Prim2SF r); simpl; congruence.
Qed.

Lemma same_trans (x y z : float) :
  Binary64.same x y -> Binary64.same y z -> Binary64.same x z.
Proof.
  unfold Binary64.same. intros [-> | [Hx Hy]] [-> | [Hy' Hz]]; auto.
Qed.

Lemma tanh_zero (g : float) :
  is_zero g = true -> is_zero (Binary64.tanh g) = true.
Proof.
  intros H. destruct (is_zero_cases g H) as [-> | ->]; vm_compute; reflexivity.
Qed.

Section Binary64Runs.
Import Binary64 Binary64Example.
Local Open Scope float_scope.

(** With both gates at zero and an attention output that overflowed, the
    layer does not return its input hidden state 5: tanh of the gate is 0,
    the attention output is infinite, infinity times 0 is NaN, and the
    layer returns NaN. *)
Lemma TextCrossAttentionDecoderLayer_gates_overflow :
  cl_AttentionGate overflow_layer = Some 0
  /\ cl_MLPGate overflow_layer = Some 0
  /\ Tanh 0 tt = 0
  /\ TextCrossAttention_Forward overflow_attention tt
       (RMSNorm_apply 1 tt 5 (eps opts)) (Some 2) root opts empty_state
     = Returned (infinity, empty_state)
  /\ infinity * 0 = nan
  /\ TextCrossAttentionDecoderLayer_Forward overflow_layer tt 5 0 None
       (Some 2) None root opts empty_state
     = Returned (nan, empty_state)
  /\ ~ same nan 5.
Proof.
  repeat split; try (vm_compute; reflexivity).
  intros [H | [H _]].
  - apply (f_equal Prim2SF) in H. vm_compute in H. discriminate.
  - vm_compute in H. discriminate.
Qed.

(** A negative zero comes back as a positive zero: the same number, not
    the same value. *)
Example closed_layer_negative_zero :
  TextCrossAttentionDecoderLayer_Forward closed_layer tt (-0) 0 None (Some 2)
    None root opts empty_state
  = Returned (0, empty_state)
  /\ same 0 (-0)
  /\ 0 <> -0.
Proof.
  split; [vm_compute; reflexivity | split].
  - right. split; reflexivity.
  - intros H. apply (f_equal Prim2SF) in H. vm_compute in H. discriminate.
Qed.

(** Witness of C6: the example layer with both gates at zero, whose
    attention output 40 and feed-forward output are finite, returns the
    hidden state 5 it was given; the layer whose attention output
    overflowed returns NaN. *)
Lemma TextCrossAttentionDecoderLayer_gates_witness :
  (exists out,
     TextCrossAttentionDecoderLayer_Forward closed_layer tt 5 0 None (Some 2)
       None root opts empty_state
     = Returned (out, empty_state)
     /\ same out 5)
  /\ (exists out,
        TextCrossAttentionDecoderLayer_Forward overflow_layer tt 5 0 None
          (Some 2) None root opts empty_state
        = Returned (out, empty_state)
        /\ is_nan out = true).
Proof.
  assert (Hca : TextCrossAttention_Forward cross_attention tt
                  (RMSNorm_apply 1 tt 5 (eps opts)) (Some 2) root opts
                  empty_state
                = Returned (40, empty_state))
    by (vm_compute; reflexivity).
  assert (Hov : TextCrossAttention_Forward overflow_attention tt
                  (RMSNorm_apply 1 tt 5 (eps opts)) (Some 2) root opts
                  empty_state
                = Returned (infinity, empty_state))
    by (vm_compute; reflexivity).
  split.
  - refine (proj1 (proj2 (TextCrossAttentionDecoderLayer_gates 1 1
                     cross_attention 0 (-0) 2 3 4 tt 5 0 None (Some 2) None
                     root opts empty_state
                     (fun x => is_zero x = true) (fun x => is_finite x = true)
                     (fun x => is_nan x = true) same))
              _ _ _ _ eq_refl eq_refl 40 empty_state Hca _ _).
    + intros g. apply tanh_zero.
    + intros x g. apply mul_finite_zero.
    + intros z r. apply add_zero_l.
    + apply same_trans.
    + vm_compute. reflexivity.
    + vm_compute. reflexivity.
  - refine (proj2 (proj2 (TextCrossAttentionDecoderLayer_gates 1 1
                     overflow_attention 0 0 2 3 4 tt 5 0 None (Some 2) None
                     root opts empty_state
                     (fun x => is_zero x = true) (fun x => is_finite x = true)
                     (fun x => is_nan x = true) same))
              _ _ _ _ eq_refl eq_refl infinity empty_state Hov _).
    + intros g. apply tanh_zero.
    + intros x g Hx. apply mul_not_finite_zero.
      destruct (is_finite x); [contradiction | reflexivity].
    + intros x r. apply add_nan_l.
    + intros x r. apply add_nan_r.
    + left. vm_compute. discriminate.
Defined.

End Binary64Runs.

(** ** Further properties of model_text.go *)

Section FurtherProperties.

Context {Ctx Tensor Linear RMSNorm Embedding : Type}.
Context {B : Backend Ctx Tensor Linear RMSNorm Embedding}.
Context {Cache CacheOptions Store : Type}.
Context {C : CacheBackend Ctx Tensor Cache CacheOptions Store}.

Abbreviation State := (FwdState Tensor Cache CacheOptions Store).
Abbreviation TextModelOptions := (TextModelOptions Tensor).
Abbreviation TextDecoderLayer := (TextDecoderLayer Tensor Linear RMSNorm).

(** *** When a forward call returns *)







(** *** A cross-attention layer without a cross-modal state *)

Lemma TextCrossAttentionDecoderLayer_Forward_nil
    (d : TextCrossAttentionDecoderLayer Tensor Linear RMSNorm) (ctx : Ctx)
    (h pos : Tensor) (mask cam : option Tensor) (cache : Cache)
    (opts : TextModelOptions) (s : State) :
  TextCrossAttentionDecoderLayer_Forward d ctx h pos mask None cam cache opts s
  = Panicked.
Proof.
  unfold TextCrossAttentionDecoderLayer_Forward, nn_RMSNorm_Forward.
  destruct (cl_AttentionNorm d); [| reflexivity].
  destruct (cl_CrossAttention d) as [ca |]; [| reflexivity].
  unfold bind, deref, ret, TextCrossAttention_Forward.
  destruct (div64 (hiddenSize opts) (numHeads opts)); reflexivity.
Qed.

Lemma TextDecoder_loop_nil_state (ctx : Ctx) (pos : Tensor)
    (mask cam : option Tensor) (cache : Cache) (opts : TextModelOptions)
    (layers : list TextDecoderLayer) :
  forall (j i : nat) (h : Tensor) (s : State) d,
    layers !! j = Some (CrossAttentionDecoderLayer d) ->
    TextDecoder_runs None opts (i + j) = true ->
    TextDecoder_loop ctx pos mask None cam cache opts layers i h s = Panicked.
Proof.
  induction layers as [| layer layers IH]; intros j i h s d Hj Hruns;
    [discriminate |].
  simpl. unfold bind. destruct j as [| j].
  - injection Hj as ->. rewrite Nat.add_0_r in Hruns.
    unfold TextDecoder_iteration. rewrite Hruns.
    unfold bind, TextDecoderLayer_Forward.
    destruct (Cache_Sub cache i s) as [[sub s1] |]; [| reflexivity].
    rewrite TextCrossAttentionDecoderLayer_Forward_nil. reflexivity.
  - destruct (TextDecoder_iteration ctx pos mask None cam cache opts i layer h s)
      as [[h1 s1] |]; [| reflexivity].
    apply (IH j (S i) h1 s1 d Hj). rewrite Nat.add_succ_comm. exact Hruns.
Qed.

(** The guard goes by index, not by the kind of the layer: a decoder that
    holds a cross-attention layer at an index outside the cross-attention
    index list panics on every call without a cross-modal state, whatever
    the other layers and the cache do. *)
Theorem TextDecoder_Forward_nil_state_panics
    (d : TextDecoder Tensor Linear RMSNorm) (ctx : Ctx) (h pos : Tensor)
    (mask cam : option Tensor) (cache : Cache) (opts : TextModelOptions)
    (s : State) (i : nat)
    (dl : TextCrossAttentionDecoderLayer Tensor Linear RMSNorm) :
  Layers d !! i = Some (CrossAttentionDecoderLayer dl) ->
  Z.of_nat i < 2 ^ 32 ->
  ~ In (Z.of_nat i) (crossAttentionLayers opts) ->
  TextDecoder_Forward d ctx h pos mask None cam cache opts s = Panicked.
Proof.
  intros Hi Hlt Hnin. unfold TextDecoder_Forward.
  apply (TextDecoder_loop_nil_state ctx pos mask cam cache opts (Layers d) i
           0%nat h s dl Hi).
  simpl. apply TextDecoder_runs_iff; [exact Hlt | left; exact Hnin].
Qed.

(** *** Text-only calls *)

Lemma TextDecoder_loop_text_only (ctx : Ctx) (pos : Tensor)
    (mask cam : option Tensor) (cache : Cache) (opts : TextModelOptions)
    (ls1 : list TextDecoderLayer) :
  forall (ls2 : list TextDecoderLayer) (i : nat) (h : Tensor) (s : State),
    length ls1 = length ls2 ->
    (forall j l1 l2,
       ls1 !! j = Some l1 -> ls2 !! j = Some l2 ->
       TextDecoder_runs None opts (i + j) = true -> l1 = l2) ->
    TextDecoder_loop ctx pos mask None cam cache opts ls1 i h s
    = TextDecoder_loop ctx pos mask None cam cache opts ls2 i h s.
Proof.
  induction ls1 as [| l1 ls1 IH]; intros [| l2 ls2] i h s Hlen Hagree;
    try discriminate; [reflexivity |].
  assert (Hit : TextDecoder_iteration ctx pos mask None cam cache opts i l1 h s
                = TextDecoder_iteration ctx pos mask None cam cache opts i l2 h s).
  { unfold TextDecoder_iteration.
    destruct (TextDecoder_runs None opts i) eqn:Eruns; [| reflexivity].
    rewrite (Hagree 0%nat l1 l2 eq_refl eq_refl); [reflexivity |].
    rewrite Nat.add_0_r. exact Eruns. }
  simpl. unfold bind. rewrite Hit.
  destruct (TextDecoder_iteration ctx pos mask None cam cache opts i l2 h s)
    as [[h1 s1] |]; [| reflexivity].
  apply IH; [simpl in Hlen; lia |].
  intros j a b Ha Hb Hruns. apply (Hagree (S j) a b Ha Hb).
  rewrite Nat.add_succ_r. exact Hruns.
Qed.

(** A call without a cross-modal state does not depend on what stands at
    the indices of the cross-attention index list: two decoders of the same
    length that hold the same layers at all other indices have the same
    outcome, even where one holds a layer whose weights are nil. *)
Theorem TextDecoder_Forward_text_only
    (d1 d2 : TextDecoder Tensor Linear RMSNorm) (ctx : Ctx) (h pos : Tensor)
    (mask cam : option Tensor) (cache : Cache) (opts : TextModelOptions)
    (s : State) :
  length (Layers d1) = length (Layers d2) ->
  Z.of_nat (length (Layers d1)) <= 2 ^ 32 ->
  (forall i, ~ In (Z.of_nat i) (crossAttentionLayers opts) ->
             Layers d1 !! i = Layers d2 !! i) ->
  TextDecoder_Forward d1 ctx h pos mask None cam cache opts s
  = TextDecoder_Forward d2 ctx h pos mask None cam cache opts s.
Proof.
  intros Hlen Hmax Hagree. unfold TextDecoder_Forward.
  apply TextDecoder_loop_text_only; [exact Hlen |].
  intros j l1 l2 H1 H2 Hruns. simpl in Hruns.
  assert (Hj : (j < length (Layers d1))%nat)
    by (apply lookup_lt_is_Some; eexists; exact H1).
  apply TextDecoder_runs_iff in Hruns as [Hnin | Hcas]; [| contradiction | lia].
  specialize (Hagree j Hnin). rewrite H1, H2 in Hagree. congruence.
Qed.

(** *** Layers in sequence *)

Lemma TextDecoder_loop_app (ctx : Ctx) (pos : Tensor)
    (mask cas cam : option Tensor) (cache : Cache) (opts : TextModelOptions)
    (ls1 ls2 : list TextDecoderLayer) :
  forall (i : nat) (h : Tensor) (s : State),
    TextDecoder_loop ctx pos mask cas cam cache opts (ls1 ++ ls2) i h s
    = (h' <- TextDecoder_loop ctx pos mask cas cam cache opts ls1 i h ;;
       TextDecoder_loop ctx pos mask cas cam cache opts ls2
         (i + length ls1) h') s.
Proof.
  induction ls1 as [| l ls1 IH]; intros i h s.
  - simpl. rewrite Nat.add_0_r. reflexivity.
  - simpl. unfold bind.
    destruct (TextDecoder_iteration ctx pos mask cas cam cache opts i l h s)
      as [[h1 s1] |]; [| reflexivity].
    rewrite IH. unfold bind. rewrite Nat.add_succ_comm. reflexivity.
Qed.

(** Layers run in ascending index order, each on the hidden state and the
    cache the one before left.  A decoder without layers returns the hidden
    state it was given; a decoder over [ls1 ++ [layer]] does what the
    decoder over [ls1] does and then, on the hidden state and the state
    that call returned, calls [Sub(length ls1)] and the forward function of
    [layer] when the guard passes at index [length ls1], and nothing
    otherwise; and a decoder over [ls1 ++ ls2] does what the decoder over
    [ls1] does and then the layers [ls2], counted on from [length ls1].  It
    panics as soon as either part does. *)
Theorem TextDecoder_Forward_app (ctx : Ctx) (h pos : Tensor)
    (mask cas cam : option Tensor) (cache : Cache) (opts : TextModelOptions)
    (ls1 ls2 : list TextDecoderLayer) (s : State) :
  TextDecoder_Forward {| Layers := [] |} ctx h pos mask cas cam cache opts s
  = Returned (h, s)
  /\ (forall layer,
        TextDecoder_Forward {| Layers := ls1 ++ [layer] |} ctx h pos mask cas
          cam cache opts s
        = match TextDecoder_Forward {| Layers := ls1 |} ctx h pos mask cas cam
                  cache opts s with
          | Returned (h', s') =>
              if negb (slices_Contains (crossAttentionLayers opts)
                         (uint32 (Z.of_nat (length ls1))))
                 || not_nil cas
              then
                match Cache_Sub cache (length ls1) s' with
                | Returned (sub, s_sub) =>
                    TextDecoderLayer_Forward layer ctx h' pos mask cas cam
                      sub opts s_sub
                | Panicked => Panicked
                end
              else Returned (h', s')
          | Panicked => Panicked
          end)
  /\ TextDecoder_Forward {| Layers := ls1 ++ ls2 |} ctx h pos mask cas cam
       cache opts s
     = match TextDecoder_Forward {| Layers := ls1 |} ctx h pos mask cas cam
               cache opts s with
       | Returned (h', s') =>
           TextDecoder_loop ctx pos mask cas cam cache opts ls2 (length ls1)
             h' s'
       | Panicked => Panicked
       end.
Proof.
  split; [reflexivity | split].
  - intros layer.
    rewrite (TextDecoder_Forward_snoc {| Layers := ls1 |}
               {| Layers := ls1 ++ [layer] |} layer _ _ _ _ _ _ _ _ _ eq_refl).
    simpl.
    destruct (TextDecoder_Forward {| Layers := ls1 |} ctx h pos mask cas cam
                cache opts s) as [[h' s'] |]; [| reflexivity].
    unfold TextDecoder_iteration, TextDecoder_runs.
    destruct (negb _ || not_nil cas); reflexivity.
  - unfold TextDecoder_Forward. simpl.
    rewrite TextDecoder_loop_app. reflexivity.
Qed.

(** *** What each kind of layer reads and writes *)

Lemma TextCrossAttentionDecoderLayer_Forward_state
    (d : TextCrossAttentionDecoderLayer Tensor Linear RMSNorm) (ctx : Ctx)
    (h pos : Tensor) (mask cas cam : option Tensor) (cache : Cache)
    (opts : TextModelOptions) (s s' : State) (r : Tensor) :
  TextCrossAttentionDecoderLayer_Forward d ctx h pos mask cas cam cache opts s
  = Returned (r, s') ->
  s' = s.
Proof.
  unfold TextCrossAttentionDecoderLayer_Forward, nn_RMSNorm_Forward.
  intros H. inv_fwd.
  match goal with
  | Hm : TextMLP_Forward _ _ _ _ _ = Returned _ |- _ =>
      apply TextMLP_Forward_state in Hm; subst
  end.
  match goal with
  | Hc : TextCrossAttention_Forward _ _ _ _ _ _ _ = Returned _ |- _ =>
      apply TextCrossAttention_Forward_state in Hc; subst
  end.
  reflexivity.
Qed.

(** A cross-attention decoder layer leaves the cache store and the log of
    cache calls as it found them, and its outcome is the same for any
    cache handle, positions and masks; the decoder still calls [Sub(i)] for
    it, and that is the only cache call of its iteration. *)
Theorem TextCrossAttentionDecoderLayer_frame
    (d : TextCrossAttentionDecoderLayer Tensor Linear RMSNorm) (ctx : Ctx)
    (h pos : Tensor) (mask cas cam : option Tensor) (cache : Cache)
    (opts : TextModelOptions) (s : State) :
  (forall r s',
     TextCrossAttentionDecoderLayer_Forward d ctx h pos mask cas cam cache
       opts s
     = Returned (r, s') ->
     s' = s)
  /\ (forall pos' mask' cam' (cache' : Cache),
        TextCrossAttentionDecoderLayer_Forward d ctx h pos' mask' cas cam'
          cache' opts s
        = TextCrossAttentionDecoderLayer_Forward d ctx h pos mask cas cam
            cache opts s)
  /\ (forall i r s',
        TextDecoder_iteration ctx pos mask cas cam cache opts i
          (CrossAttentionDecoderLayer d) h s
        = Returned (r, s') ->
        TextDecoder_runs cas opts i = true ->
        exists sub store',
          Sub cache i (store s) = Returned (sub, store')
          /\ s' = {| store := store';
                     calls := calls s ++ [CallSub cache i] |}).
Proof.
  split; [| split].
  - intros r s' H.
    exact (TextCrossAttentionDecoderLayer_Forward_state _ _ _ _ _ _ _ _ _ _ _ _ H).
  - intros pos' mask' cam' cache'. reflexivity.
  - intros i r s' H Hruns. unfold TextDecoder_iteration in H.
    rewrite Hruns in H. apply bind_Returned in H as (sub & s1 & HSub & Hl).
    unfold TextDecoderLayer_Forward in Hl.
    apply TextCrossAttentionDecoderLayer_Forward_state in Hl. subst s'.
    unfold Cache_Sub in HSub.
    destruct (Sub cache i (store s)) as [[sub' store'] |]; [| discriminate].
    injection HSub as -> <-. eexists _, _. split; reflexivity.
Qed.

Lemma TextDecoder_loop_self_only (ctx : Ctx) (pos : Tensor)
    (mask : option Tensor) (a b : Tensor) (cam1 cam2 : option Tensor)
    (cache : Cache) (opts : TextModelOptions)
    (layers : list TextDecoderLayer) :
  forallb (fun l => negb (is_cross_attention_layer l)) layers = true ->
  forall (i : nat) (h : Tensor) (s : State),
    TextDecoder_loop ctx pos mask (Some a) cam1 cache opts layers i h s
    = TextDecoder_loop ctx pos mask (Some b) cam2 cache opts layers i h s.
Proof.
  induction layers as [| l layers IH]; intros Hall i h s; [reflexivity |].
  simpl in Hall. apply andb_prop in Hall as [Hl Hrest].
  destruct l as [d | d]; [| discriminate].
  simpl. unfold bind.
  change (TextDecoder_iteration ctx pos mask (Some a) cam1 cache opts i
            (SelfAttentionDecoderLayer d) h s)
    with (TextDecoder_iteration ctx pos mask (Some b) cam2 cache opts i
            (SelfAttentionDecoderLayer d) h s).
  destruct (TextDecoder_iteration ctx pos mask (Some b) cam2 cache opts i
              (SelfAttentionDecoderLayer d) h s) as [[h1 s1] |];
    [apply (IH Hrest) | reflexivity].
Qed.

Lemma TextDecoder_loop_cross_only (ctx : Ctx) (pos pos' : Tensor)
    (mask mask' cas cam : option Tensor) (cache : Cache)
    (opts : TextModelOptions) (layers : list TextDecoderLayer) :
  forallb is_cross_attention_layer layers = true ->
  forall (i : nat) (h : Tensor) (s : State),
    TextDecoder_loop ctx pos mask cas cam cache opts layers i h s
    = TextDecoder_loop ctx pos' mask' cas cam cache opts layers i h s.
Proof.
  induction layers as [| l layers IH]; intros Hall i h s; [reflexivity |].
  simpl in Hall. apply andb_prop in Hall as [Hl Hrest].
  destruct l as [d | d]; [discriminate |].
  simpl. unfold bind.
  change (TextDecoder_iteration ctx pos mask cas cam cache opts i
            (CrossAttentionDecoderLayer d) h s)
    with (TextDecoder_iteration ctx pos' mask' cas cam cache opts i
            (CrossAttentionDecoderLayer d) h s).
  destruct (TextDecoder_iteration ctx pos' mask' cas cam cache opts i
              (CrossAttentionDecoderLayer d) h s) as [[h1 s1] |];
    [apply (IH Hrest) | reflexivity].
Qed.

(** Each kind of layer reads its own inputs only: a decoder of
    self-attention layers has the same outcome for any two cross-modal
    states and cross-attention masks, and a decoder of cross-attention
    layers has the same outcome for any two position tensors and masks. *)
Theorem TextDecoder_Forward_inputs_by_kind
    (d : TextDecoder Tensor Linear RMSNorm) (ctx : Ctx) (h : Tensor)
    (cache : Cache) (opts : TextModelOptions) (s : State) :
  (forallb (fun l => negb (is_cross_attention_layer l)) (Layers d) = true ->
   forall pos mask a b cam1 cam2,
     TextDecoder_Forward d ctx h pos mask (Some a) cam1 cache opts s
     = TextDecoder_Forward d ctx h pos mask (Some b) cam2 cache opts s)
  /\ (forallb is_cross_attention_layer (Layers d) = true ->
      forall pos pos' mask mask' cas cam,
        TextDecoder_Forward d ctx h pos mask cas cam cache opts s
        = TextDecoder_Forward d ctx h pos' mask' cas cam cache opts s).
Proof.
  split.
  - intros Hall pos mask a b cam1 cam2.
    exact (TextDecoder_loop_self_only ctx pos mask a b cam1 cam2 cache opts
             (Layers d) Hall 0%nat h s).
  - intros Hall pos pos' mask mask' cas cam.
    exact (TextDecoder_loop_cross_only ctx pos pos' mask mask' cas cam cache
             opts (Layers d) Hall 0%nat h s).
Qed.

(** *** How many cache calls a forward call makes *)

Lemma Put_calls_Put (cs : list (CacheCall Tensor Cache CacheOptions))
    (c : Cache) (key value : Tensor) (o : CacheOptions) :
  Put_calls (cs ++ [CallPut c key value o]) = Put_calls cs ++ [c].
Proof. unfold Put_calls. rewrite omap_app. reflexivity. Qed.

Lemma Put_calls_Sub (cs : list (CacheCall Tensor Cache CacheOptions))
    (c : Cache) (i : nat) :
  Put_calls (cs ++ [CallSub c i]) = Put_calls cs.
Proof. unfold Put_calls. rewrite omap_app. simpl. apply app_nil_r. Qed.

Lemma TextDecoderLayer_Forward_Put_calls (layer : TextDecoderLayer)
    (ctx : Ctx) (h pos : Tensor) (mask cas cam : option Tensor)
    (cache : Cache) (opts : TextModelOptions) (s s' : State) (r : Tensor) :
  TextDecoderLayer_Forward layer ctx h pos mask cas cam cache opts s
  = Returned (r, s') ->
  Put_calls (calls s')
  = Put_calls (calls s)
    ++ (if is_cross_attention_layer layer then [] else [cache]).
Proof.
  intros H. destruct layer as [d | d]; unfold TextDecoderLayer_Forward in H;
    simpl.
  - unfold TextSelfAttentionDecoderLayer_Forward, nn_RMSNorm_Forward in H.
    inv_fwd.
    match goal with
    | Hm : TextMLP_Forward _ _ _ _ _ = Returned _ |- _ =>
        apply TextMLP_Forward_state in Hm; subst
    end.
    match goal with
    | Hs : TextSelfAttention_Forward _ _ _ _ _ _ _ _ = Returned _ |- _ =>
        apply TextSelfAttention_Forward_calls in Hs as (key & value & ->)
    end.
    apply Put_calls_Put.
  - apply TextCrossAttentionDecoderLayer_Forward_state in H. subst s'.
    symmetry. apply app_nil_r.
Qed.

Lemma TextDecoder_loop_Put_calls (ctx : Ctx) (pos : Tensor)
    (mask cas cam : option Tensor) (cache : Cache) (opts : TextModelOptions)
    (layers : list TextDecoderLayer) :
  forall (i : nat) (h h' : Tensor) (s s' : State),
    TextDecoder_loop ctx pos mask cas cam cache opts layers i h s
    = Returned (h', s') ->
    length (Put_calls (calls s'))
    = (length (Put_calls (calls s))
       + length (executed_self_layers cas opts layers i))%nat.
Proof.
  induction layers as [| layer layers IH]; intros i h h' s s'.
  - simpl. unfold ret. intros [= _ <-]. unfold executed_self_layers. simpl. lia.
  - simpl. intros H. apply bind_Returned in H as (h1 & s1 & Hit & Hloop).
    apply IH in Hloop. rewrite Hloop. clear Hloop.
    unfold executed_self_layers. simpl.
    unfold TextDecoder_iteration in Hit.
    destruct (TextDecoder_runs cas opts i) eqn:Eruns; simpl.
    + apply bind_Returned in Hit as (sub & s0 & HSub & Hlayer).
      apply TextDecoderLayer_Forward_Put_calls in Hlayer. rewrite Hlayer.
      apply Cache_Sub_Returned in HSub. rewrite HSub, Put_calls_Sub.
      rewrite length_app.
      destruct (is_cross_attention_layer layer); simpl;
        unfold executed_self_layers; lia.
    + apply ret_Returned in Hit as [-> ->]. unfold executed_self_layers. lia.
Qed.

(** A forward call of the text model that returns has called [Sub] on its
    cache handle once per layer the guard let through, in ascending index
    order, and [Put] once per self-attention layer among them; embedding,
    final normalization, output projection and the cross-attention layers
    make no cache call. *)
Theorem TextModel_Forward_cache_calls
    (m : TextModel Tensor Linear RMSNorm Embedding) (ctx : Ctx)
    (inputIDs positionIDs : Tensor) (mask cas cam : option Tensor)
    (cache : Cache) (s s' : State) (logits : Tensor) :
  TextModel_Forward m ctx inputIDs positionIDs mask cas cam cache s
  = Returned (logits, s') ->
  Sub_calls (calls s')
  = Sub_calls (calls s)
    ++ map (pair cache)
         (List.filter (TextDecoder_runs cas (Opts m))
            (seq 0 (length (Layers (Transformer m)))))
  /\ length (Put_calls (calls s'))
     = (length (Put_calls (calls s))
        + length (executed_self_layers cas (Opts m)
                    (Layers (Transformer m)) 0))%nat.
Proof.
  unfold TextModel_Forward, TextDecoder_Forward, nn_Embedding_Forward,
    nn_RMSNorm_Forward, nn_Linear_Forward.
  intros H. inv_fwd.
  match goal with
  | Hloop : TextDecoder_loop _ _ _ _ _ _ _ _ _ _ _ = Returned _ |- _ =>
      split;
      [exact (TextDecoder_loop_Sub_calls _ _ _ _ _ _ _ _ _ _ _ _ _ Hloop)
      | exact (TextDecoder_loop_Put_calls _ _ _ _ _ _ _ _ _ _ _ _ _ Hloop)]
  end.
Qed.

(** *** Construction: the index list and the head dimension *)

Lemma slices_Contains_ext (l1 l2 : list Z) (i : Z) :
  (In i l1 <-> In i l2) -> slices_Contains l1 i = slices_Contains l2 i.
Proof.
  intros H. rewrite <- !slices_Contains_In in H.
  destruct (slices_Contains l1 i), (slices_Contains l2 i); try reflexivity.
  - symmetry. apply H. reflexivity.
  - apply H. reflexivity.
Qed.

Lemma newTextModel_Layers (c : Config) :
  Layers (Transformer (newTextModel (Tensor := Tensor) (Linear := Linear)
                         (RMSNorm := RMSNorm) (Embedding := Embedding) c))
  = map (newTextModel_layer c) (seqZ 0 (Uint c "block_count" [])).
Proof. unfold newTextModel. simpl. apply (fold_left_append _ _ []). Qed.

(** Only the members of the cross-attention index list below [block_count]
    count: two configurations with the same [block_count] whose lists have
    the same members below it (whatever their order, repetitions and
    members out of range) build the same layer list, and the decoder's
    guard decides the same at every layer. *)
Theorem newTextModel_index_list_members (c1 c2 : Config) :
  Uint c1 "block_count" [] = Uint c2 "block_count" [] ->
  Uint c1 "block_count" [] <= 2 ^ 32 ->
  (forall i, 0 <= i < Uint c1 "block_count" [] ->
     In i (Uints c1 "attention.cross_attention_layers" [])
     <-> In i (Uints c2 "attention.cross_attention_layers" [])) ->
  let m1 : TextModel Tensor Linear RMSNorm Embedding := newTextModel c1 in
  let m2 : TextModel Tensor Linear RMSNorm Embedding := newTextModel c2 in
  Layers (Transformer m1) = Layers (Transformer m2)
  /\ forall cas i,
       (i < length (Layers (Transformer m1)))%nat ->
       TextDecoder_runs cas (Opts m1) i = TextDecoder_runs cas (Opts m2) i.
Proof.
  intros Hcount Hmax Hmem m1 m2. unfold m1, m2. split.
  - rewrite !newTextModel_Layers, <- Hcount.
    apply map_ext_in. intros i Hi.
    apply list_elem_of_In, elem_of_seqZ in Hi.
    unfold newTextModel_layer.
    rewrite (slices_Contains_ext _ _ i (Hmem i ltac:(lia))). reflexivity.
  - intros cas i Hi. rewrite newTextModel_Layers in Hi.
    rewrite length_map, length_seqZ in Hi.
    unfold TextDecoder_runs, newTextModel. simpl.
    rewrite uint32_small by lia.
    rewrite (slices_Contains_ext _ _ (Z.of_nat i) (Hmem (Z.of_nat i) ltac:(lia))).
    reflexivity.
Qed.

Lemma wrap64_small (z : Z) : - 2 ^ 63 <= z < 2 ^ 63 -> wrap64 z = z.
Proof. intros Hz. unfold wrap64. rewrite Z.mod_small; lia. Qed.

(** For a model built from a configuration whose hidden size and head
    count are [uint32] values, the head count not zero, the division
    [hiddenSize / numHeads] of every attention call does not panic and does
    not wrap: the head dimension is the floor of their quotient, and
    [headDim * numHeads] is [hiddenSize] less the remainder, so the two are
    equal exactly when the head count divides the hidden size. *)
Theorem newTextModel_headDim (c : Config) :
  let E := Uint c "embedding_length" [] in
  let H := Uint c "attention.head_count" [] in
  0 <= E < 2 ^ 32 ->
  0 < H < 2 ^ 32 ->
  let opts := Opts (newTextModel (Tensor := Tensor) (Linear := Linear)
                      (RMSNorm := RMSNorm) (Embedding := Embedding) c) in
  hiddenSize opts = E /\ numHeads opts = H
  /\ div64 (hiddenSize opts) (numHeads opts) = Some (E / H)
  /\ 0 <= E / H <= E
  /\ (E / H) * H = E - E `mod` H
  /\ ((E / H) * H = E <-> E `mod` H = 0).
Proof.
  intros E H HE HH opts.
  assert (HhE : hiddenSize opts = E)
    by (unfold opts, newTextModel, int64; simpl; apply wrap64_small; lia).
  assert (HnH : numHeads opts = H)
    by (unfold opts, newTextModel, int64; simpl; apply wrap64_small; lia).
  assert (Hq : 0 <= E / H <= E).
  { split; [apply Z.div_pos; lia |].
    apply Z.div_le_upper_bound; [lia | nia]. }
  pose proof (Z.div_mod E H ltac:(lia)) as Hdm.
  split; [exact HhE | split; [exact HnH | split; [| split; [exact Hq | split]]]].
  - rewrite HhE, HnH, div64_nonzero by lia.
    rewrite Z.quot_div_nonneg by lia. rewrite wrap64_small by lia. reflexivity.
  - lia.
  - lia.
Qed.

(** *** What a return implies *)

Lemma div64_Some (a b x : Z) : div64 a b = Some x -> b <> 0.
Proof.
  unfold div64. destruct (Z.eqb_spec b 0); [discriminate | intros _; assumption].
Qed.

Lemma TextMLP_Forward_Returned_loaded (mlp : TextMLP Linear) (ctx : Ctx)
    (x : Tensor) (opts : TextModelOptions) (s s' : State) (r : Tensor) :
  TextMLP_Forward mlp ctx x opts s = Returned (r, s') ->
  TextMLP_loaded mlp = true.
Proof.
  unfold TextMLP_Forward, nn_Linear_Forward, TextMLP_loaded.
  intros H. inv_fwd.
  repeat match goal with E : _ = Some _ |- _ => rewrite E; clear E end.
  reflexivity.
Qed.

Lemma TextSelfAttention_Forward_Returned_loaded (sa : TextSelfAttention Linear)
    (ctx : Ctx) (h pos : Tensor) (mask : option Tensor) (cache : Cache)
    (opts : TextModelOptions) (s s' : State) (r : Tensor) :
  TextSelfAttention_Forward sa ctx h pos mask cache opts s = Returned (r, s') ->
  TextSelfAttention_loaded sa = true /\ numHeads opts <> 0.
Proof.
  unfold TextSelfAttention_Forward, nn_Linear_Forward, TextSelfAttention_loaded.
  intros H. inv_fwd.
  match goal with
  | kv : (Tensor * Tensor)%type |- _ => destruct kv as [keys values]
  end.
  inv_fwd.
  match goal with
  | Hd : div64 _ _ = Some _ |- _ => apply div64_Some in Hd
  end.
  repeat match goal with E : _ = Some _ |- _ => rewrite E; clear E end.
  split; [reflexivity | assumption].
Qed.

Lemma TextCrossAttention_Forward_Returned_loaded
    (ca : TextCrossAttention Linear RMSNorm) (ctx : Ctx) (h : Tensor)
    (cas : option Tensor) (cache : Cache) (opts : TextModelOptions)
    (s s' : State) (r : Tensor) :
  TextCrossAttention_Forward ca ctx h cas cache opts s = Returned (r, s') ->
  TextCrossAttention_loaded ca = true /\ numHeads opts <> 0 /\ cas <> None.
Proof.
  unfold TextCrossAttention_Forward, nn_Linear_Forward, nn_RMSNorm_Forward,
    TextCrossAttention_loaded.
  intros H. inv_fwd.
  match goal with
  | Hd : div64 _ _ = Some _ |- _ => apply div64_Some in Hd
  end.
  repeat match goal with E : _ = Some _ |- _ => rewrite E; clear E end.
  split; [reflexivity | split; [assumption | discriminate]].
Qed.

Lemma TextDecoderLayer_Forward_Returned_loaded (layer : TextDecoderLayer)
    (ctx : Ctx) (h pos : Tensor) (mask cas cam : option Tensor)
    (cache : Cache) (opts : TextModelOptions) (s s' : State) (r : Tensor) :
  TextDecoderLayer_Forward layer ctx h pos mask cas cam cache opts s
  = Returned (r, s') ->
  TextDecoderLayer_loaded layer = true /\ numHeads opts <> 0
  /\ (is_cross_attention_layer layer = true -> cas <> None).
Proof.
  intros H. destruct layer as [d | d]; unfold TextDecoderLayer_Forward in H;
    simpl.
  - unfold TextSelfAttentionDecoderLayer_Forward, nn_RMSNorm_Forward in H.
    inv_fwd.
    match goal with
    | Hm : TextMLP_Forward _ _ _ _ _ = Returned _ |- _ =>
        apply TextMLP_Forward_Returned_loaded in Hm
    end.
    match goal with
    | Hs : TextSelfAttention_Forward _ _ _ _ _ _ _ _ = Returned _ |- _ =>
        apply TextSelfAttention_Forward_Returned_loaded in Hs as [Hsa Hn]
    end.
    repeat match goal with E : _ = Some _ |- _ => rewrite E; clear E end.
    simpl. split; [| split; [exact Hn | discriminate]].
    rewrite Hsa. assumption.
  - unfold TextCrossAttentionDecoderLayer_Forward, nn_RMSNorm_Forward in H.
    inv_fwd.
    match goal with
    | Hm : TextMLP_Forward _ _ _ _ _ = Returned _ |- _ =>
        apply TextMLP_Forward_Returned_loaded in Hm; rename Hm into Hmlp
    end.
    match goal with
    | Hc : TextCrossAttention_Forward _ _ _ _ _ _ _ = Returned _ |- _ =>
        apply TextCrossAttention_Forward_Returned_loaded in Hc
          as (Hca & Hn & Hcas)
    end.
    repeat match goal with E : _ = Some _ |- _ => rewrite E; clear E end.
    simpl. split; [| split; [exact Hn | intros _; exact Hcas]].
    rewrite Hca, Hmlp. reflexivity.
Qed.

Lemma TextDecoder_loop_Returned_loaded (ctx : Ctx) (pos : Tensor)
    (mask cas cam : option Tensor) (cache : Cache) (opts : TextModelOptions)
    (layers : list TextDecoderLayer) :
  forall (i : nat) (h h' : Tensor) (s s' : State),
    TextDecoder_loop ctx pos mask cas cam cache opts layers i h s
    = Returned (h', s') ->
    forall j layer,
      layers !! j = Some layer ->
      TextDecoder_runs cas opts (i + j) = true ->
      TextDecoderLayer_loaded layer = true /\ numHeads opts <> 0
      /\ (is_cross_attention_layer layer = true -> cas <> None).
Proof.
  induction layers as [| l layers IH]; intros i h h' s s' H j layer Hj Hruns;
    [discriminate |].
  simpl in H. apply bind_Returned in H as (h1 & s1 & Hit & Hloop).
  destruct j as [| j].
  - injection Hj as <-. rewrite Nat.add_0_r in Hruns.
    unfold TextDecoder_iteration in Hit. rewrite Hruns in Hit.
    apply bind_Returned in Hit as (sub & s0 & _ & Hlayer).
    exact (TextDecoderLayer_Forward_Returned_loaded _ _ _ _ _ _ _ _ _ _ _ _ Hlayer).
  - apply (IH _ _ _ _ _ Hloop j layer Hj).
    rewrite Nat.add_succ_comm. exact Hruns.
Qed.

(** A forward call of the text model returns only if the embedding, the
    final normalization and the output projection are loaded and, for every
    layer the guard lets through, the layer's weights are loaded, the head
    count is not zero and, for a cross-attention layer, a cross-modal state
    is supplied. *)
Theorem TextModel_Forward_Returned_implies
    (m : TextModel Tensor Linear RMSNorm Embedding) (ctx : Ctx)
    (inputIDs positionIDs : Tensor) (mask cas cam : option Tensor)
    (cache : Cache) (s s' : State) (logits : Tensor) :
  TextModel_Forward m ctx inputIDs positionIDs mask cas cam cache s
  = Returned (logits, s') ->
  not_nil (TokenEmbedding m) = true
  /\ not_nil (OutputNorm m) = true
  /\ not_nil (Output m) = true
  /\ forall i layer,
       Layers (Transformer m) !! i = Some layer ->
       TextDecoder_runs cas (Opts m) i = true ->
       TextDecoderLayer_loaded layer = true
       /\ numHeads (Opts m) <> 0
       /\ (is_cross_attention_layer layer = true -> cas <> None).
Proof.
  unfold TextModel_Forward, TextDecoder_Forward, nn_Embedding_Forward,
    nn_RMSNorm_Forward, nn_Linear_Forward.
  intros H. inv_fwd.
  repeat match goal with E : _ = Some _ |- _ => rewrite E; clear E end.
  repeat split; try reflexivity;
    match goal with
    | Hloop : TextDecoder_loop _ _ _ _ _ _ _ _ _ _ _ = Returned _ |- _ =>
        eapply (TextDecoder_loop_Returned_loaded _ _ _ _ _ _ _ _ 0%nat);
        eassumption
    end.
Qed.

End FurtherProperties.

(** ** The decoder over the cache of the spec *)

Section SpecCacheProperties.

Context {Ctx Tensor Linear RMSNorm Embedding : Type}.
Context {B : Backend Ctx Tensor Linear RMSNorm Embedding}.
Context {CacheOptions : Type}.
Variable view : Ctx -> list Tensor -> Tensor.

Abbreviation SC := (SpecCache.impl (CacheOptions := CacheOptions) view).
Abbreviation SState :=
  (FwdState Tensor (SpecCache.handle CacheOptions) CacheOptions
     (gmap (list nat) (list (Tensor * Tensor)))).
Abbreviation slice := SpecCache.slice.

Lemma SpecCache_Put_store (c : SpecCache.handle CacheOptions) (ctx : Ctx)
    (k v : Tensor) (o : CacheOptions) (s s' : SState) (kv : Tensor * Tensor) :
  Cache_Put (C := SC) c ctx k v o s = Returned (kv, s') ->
  store s' = <[slice c := default [] (store s !! slice c) ++ [(k, v)]]> (store s).
Proof. unfold Cache_Put. simpl. unfold SpecCache.put. intros [= _ <-]. reflexivity. Qed.

Lemma SpecCache_Sub_store (c sub : SpecCache.handle CacheOptions) (i : nat)
    (s s' : SState) :
  Cache_Sub (C := SC) c i s = Returned (sub, s') ->
  slice sub = slice c ++ [i] /\ store s' = store s.
Proof.
  unfold Cache_Sub. simpl. unfold SpecCache.sub. intros [= <- <-].
  split; reflexivity.
Qed.

Lemma TextSelfAttention_Forward_store (sa : TextSelfAttention Linear)
    (ctx : Ctx) (h pos : Tensor) (mask : option Tensor)
    (cache : SpecCache.handle CacheOptions) (opts : TextModelOptions Tensor)
    (s s' : SState) (r : Tensor) :
  TextSelfAttention_Forward (C := SC) sa ctx h pos mask cache opts s
  = Returned (r, s') ->
  exists k v,
    store s'
    = <[slice cache := default [] (store s !! slice cache) ++ [(k, v)]]>
        (store s).
Proof.
  unfold TextSelfAttention_Forward, nn_Linear_Forward.
  intros H. inv_fwd.
  match goal with
  | HPut : Cache_Put _ _ _ _ _ _ = Returned _ |- _ =>
      apply SpecCache_Put_store in HPut
  end.
  match goal with
  | kv : (Tensor * Tensor)%type |- _ => destruct kv as [keys values]
  end.
  inv_fwd. eexists _, _. eassumption.
Qed.

Lemma TextDecoderLayer_Forward_store
    (layer : TextDecoderLayer Tensor Linear RMSNorm) (ctx : Ctx)
    (h pos : Tensor) (mask cas cam : option Tensor)
    (cache : SpecCache.handle CacheOptions) (opts : TextModelOptions Tensor)
    (s s' : SState) (r : Tensor) :
  TextDecoderLayer_Forward (C := SC) layer ctx h pos mask cas cam cache opts s
  = Returned (r, s') ->
  if is_cross_attention_layer layer then store s' = store s
  else exists k v,
         store s'
         = <[slice cache := default [] (store s !! slice cache) ++ [(k, v)]]>
             (store s).
Proof.
  intros H. destruct layer as [d | d]; unfold TextDecoderLayer_Forward in H;
    simpl.
  - unfold TextSelfAttentionDecoderLayer_Forward, nn_RMSNorm_Forward in H.
    inv_fwd.
    match goal with
    | Hm : TextMLP_Forward _ _ _ _ _ = Returned _ |- _ =>
        apply TextMLP_Forward_state in Hm; subst
    end.
    match goal with
    | Hs : TextSelfAttention_Forward _ _ _ _ _ _ _ _ = Returned _ |- _ =>
        exact (TextSelfAttention_Forward_store _ _ _ _ _ _ _ _ _ _ Hs)
    end.
  - unfold TextCrossAttentionDecoderLayer_Forward, nn_RMSNorm_Forward in H.
    inv_fwd.
    match goal with
    | Hm : TextMLP_Forward _ _ _ _ _ = Returned _ |- _ =>
        apply TextMLP_Forward_state in Hm; subst
    end.
    match goal with
    | Hc : TextCrossAttention_Forward _ _ _ _ _ _ _ = Returned _ |- _ =>
        apply TextCrossAttention_Forward_state in Hc; subst
    end.
    reflexivity.
Qed.

(** One iteration changes the slice of its own index only, by at most one
    pair. *)
Lemma TextDecoder_iteration_store (ctx : Ctx) (pos : Tensor)
    (mask cas cam : option Tensor) (cache : SpecCache.handle CacheOptions)
    (opts : TextModelOptions Tensor) (i : nat)
    (layer : TextDecoderLayer Tensor Linear RMSNorm) (h h' : Tensor)
    (s s' : SState) :
  TextDecoder_iteration (C := SC) ctx pos mask cas cam cache opts i layer h s
  = Returned (h', s') ->
  (forall sl, sl <> slice cache ++ [i] -> store s' !! sl = store s !! sl)
  /\ exists added,
       default [] (store s' !! (slice cache ++ [i]))
       = default [] (store s !! (slice cache ++ [i])) ++ added
       /\ length added
          = if TextDecoder_runs cas opts i
               && negb (is_cross_attention_layer layer)
            then 1%nat else 0%nat.
Proof.
  unfold TextDecoder_iteration.
  destruct (TextDecoder_runs cas opts i); simpl.
  - intros H. apply bind_Returned in H as (sub & s1 & HSub & Hlayer).
    apply SpecCache_Sub_store in HSub as [Hslice Hstore].
    apply TextDecoderLayer_Forward_store in Hlayer.
    destruct (is_cross_attention_layer layer); simpl.
    + rewrite Hlayer, Hstore. split; [reflexivity |].
      exists []. rewrite app_nil_r. split; reflexivity.
    + destruct Hlayer as (k & v & ->). rewrite Hslice, Hstore. split.
      * intros sl Hsl. apply lookup_insert_ne. congruence.
      * exists [(k, v)]. rewrite lookup_insert_eq. split; reflexivity.
  - intros H. apply ret_Returned in H as [-> ->]. split; [reflexivity |].
    exists []. rewrite app_nil_r. split; reflexivity.
Qed.

Lemma TextDecoder_loop_store_frame (ctx : Ctx) (pos : Tensor)
    (mask cas cam : option Tensor) (cache : SpecCache.handle CacheOptions)
    (opts : TextModelOptions Tensor)
    (layers : list (TextDecoderLayer Tensor Linear RMSNorm)) :
  forall (i : nat) (h h' : Tensor) (s s' : SState),
    TextDecoder_loop (C := SC) ctx pos mask cas cam cache opts layers i h s
    = Returned (h', s') ->
    forall sl,
      (forall j, (j < length layers)%nat -> sl <> slice cache ++ [(i + j)%nat]) ->
      store s' !! sl = store s !! sl.
Proof.
  induction layers as [| layer layers IH]; intros i h h' s s' H sl Hsl.
  - simpl in H. apply ret_Returned in H as [_ ->]. reflexivity.
  - simpl in H. apply bind_Returned in H as (h1 & s1 & Hit & Hloop).
    apply TextDecoder_iteration_store in Hit as [Hframe _].
    rewrite (IH _ _ _ _ _ Hloop sl).
    + apply Hframe. specialize (Hsl 0%nat ltac:(simpl; lia)).
      rewrite Nat.add_0_r in Hsl. exact Hsl.
    + intros j Hj. specialize (Hsl (S j) ltac:(simpl; lia)).
      rewrite Nat.add_succ_r in Hsl. exact Hsl.
Qed.

Lemma TextDecoder_loop_store_grows (ctx : Ctx) (pos : Tensor)
    (mask cas cam : option Tensor) (cache : SpecCache.handle CacheOptions)
    (opts : TextModelOptions Tensor)
    (layers : list (TextDecoderLayer Tensor Linear RMSNorm)) :
  forall (i : nat) (h h' : Tensor) (s s' : SState),
    TextDecoder_loop (C := SC) ctx pos mask cas cam cache opts layers i h s
    = Returned (h', s') ->
    forall j layer,
      layers !! j = Some layer ->
      exists added,
        default [] (store s' !! (slice cache ++ [(i + j)%nat]))
        = default [] (store s !! (slice cache ++ [(i + j)%nat])) ++ added
        /\ length added
           = if TextDecoder_runs cas opts (i + j)
                && negb (is_cross_attention_layer layer)
             then 1%nat else 0%nat.
Proof.
  induction layers as [| l layers IH]; intros i h h' s s' H j layer Hj;
    [discriminate |].
  simpl in H. apply bind_Returned in H as (h1 & s1 & Hit & Hloop).
  apply TextDecoder_iteration_store in Hit as [Hframe Hgrow].
  destruct j as [| j].
  - injection Hj as <-. rewrite Nat.add_0_r.
    rewrite (TextDecoder_loop_store_frame _ _ _ _ _ _ _ _ _ _ _ _ _ Hloop).
    + exact Hgrow.
    + intros j' _ Heq. apply app_inv_head in Heq. injection Heq as Heq. lia.
  - destruct (IH _ _ _ _ _ Hloop j layer Hj) as (added & Heq & Hlen).
    change (S i + j)%nat with (S (i + j)) in Heq, Hlen.
    exists added. rewrite Nat.add_succ_r. split; [| exact Hlen].
    rewrite Heq. rewrite (Hframe (slice cache ++ [S (i + j)])); [reflexivity |].
    intros Hne. apply app_inv_head in Hne. injection Hne as Hne. lia.
Qed.

(** With the cache of the spec, a decoder forward call that returns has
    appended one key/value pair to the slice of each self-attention layer
    the guard let through, and has left every other slice as it was: the
    slices of cross-attention layers and of skipped layers stay as they
    were, and nothing already in the cache is overwritten. *)
Theorem TextDecoder_Forward_spec_cache_slices
    (d : TextDecoder Tensor Linear RMSNorm) (ctx : Ctx) (h h' pos : Tensor)
    (mask cas cam : option Tensor) (cache : SpecCache.handle CacheOptions)
    (opts : TextModelOptions Tensor) (s s' : SState) :
  TextDecoder_Forward (C := SC) d ctx h pos mask cas cam cache opts s
  = Returned (h', s') ->
  (forall j layer,
     Layers d !! j = Some layer ->
     exists added,
       default [] (store s' !! (slice cache ++ [j]))
       = default [] (store s !! (slice cache ++ [j])) ++ added
       /\ length added
          = if TextDecoder_runs cas opts j
               && negb (is_cross_attention_layer layer)
            then 1%nat else 0%nat)
  /\ (forall sl,
        (forall j, (j < length (Layers d))%nat -> sl <> slice cache ++ [j]) ->
        store s' !! sl = store s !! sl).
Proof.
  unfold TextDecoder_Forward. intros H. split.
  - intros j layer Hj.
    exact (TextDecoder_loop_store_grows _ _ _ _ _ _ _ _ _ _ _ _ _ H j layer Hj).
  - intros sl Hsl.
    exact (TextDecoder_loop_store_frame _ _ _ _ _ _ _ _ _ _ _ _ _ H sl Hsl).
Qed.

End SpecCacheProperties.

(** ** Further concrete runs *)

Section FurtherRuns.
Import Graph Example Example2.


(** The decoder with the cross-attention layer at index 0, outside the
    index list [1], panics without vision features. *)
Lemma TextDecoder_Forward_nil_state_panics_witness :
  TextDecoder_Forward swapped_decoder tt hidden positions (Some causal) None
    None (root 0) opts empty_state
  = Panicked.
Proof.
  apply (TextDecoder_Forward_nil_state_panics swapped_decoder tt hidden
           positions (Some causal) None (root 0) opts empty_state 0%nat
           cross_layer eq_refl).
  - simpl. lia.
  - simpl. lia.
Defined.

(** Without vision features the example decoder does the same with the
    weights of its cross-attention layer loaded or not. *)
Lemma TextDecoder_Forward_text_only_witness :
  TextDecoder_Forward decoder tt hidden positions (Some causal) None None
    (root 0) opts empty_state
  = TextDecoder_Forward text_decoder tt hidden positions (Some causal) None
      None (root 0) opts empty_state.
Proof.
  apply (TextDecoder_Forward_text_only decoder text_decoder tt hidden
           positions (Some causal) None (root 0) opts empty_state eq_refl).
  - simpl. lia.
  - intros [| [| i]] Hnin; [reflexivity | | reflexivity].
    exfalso. apply Hnin. simpl. left. reflexivity.
Defined.

(** The decoder of two self-attention layers does the same for vision
    features and for any other tensor in their place. *)
Lemma TextDecoder_Forward_inputs_by_kind_witness :
  TextDecoder_Forward self_decoder tt hidden positions (Some causal)
    (Some vision) (Some vision_mask) (root 0) opts empty_state
  = TextDecoder_Forward self_decoder tt hidden positions (Some causal)
      (Some hidden) None (root 0) opts empty_state.
Proof.
  exact (proj1 (TextDecoder_Forward_inputs_by_kind self_decoder tt hidden
                  (root 0) opts empty_state)
           eq_refl positions (Some causal) vision hidden (Some vision_mask)
           None).
Defined.

(** With vision features the example model calls [Sub] at indices 0 and 1
    and [Put] once. *)
Lemma TextModel_Forward_cache_calls_witness :
  exists logits s',
    TextModel_Forward model tt tokens positions (Some causal) (Some vision)
      None (root 0) empty_state
    = Returned (logits, s')
    /\ Sub_calls (calls s') = [(root 0, 0%nat); (root 0, 1%nat)]
    /\ length (Put_calls (calls s')) = 1%nat.
Proof.
  destruct (TextModel_Forward model tt tokens positions (Some causal)
              (Some vision) None (root 0) empty_state)
    as [[logits s'] |] eqn:E; [| vm_compute in E; discriminate E].
  exists logits, s'. split; [reflexivity |].
  exact (TextModel_Forward_cache_calls model tt tokens positions
           (Some causal) (Some vision) None (root 0) empty_state s' logits E).
Defined.

(** The index list [1; 1; 7] and the index list [1] build the same two
    layers. *)
Lemma newTextModel_index_list_members_witness :
  Layers (Transformer
            (newTextModel (Tensor := Node) (Linear := string * Z)
               (RMSNorm := string) (Embedding := string * Z) bad_config))
  = Layers (Transformer
              (newTextModel (Tensor := Node) (Linear := string * Z)
                 (RMSNorm := string) (Embedding := string * Z) clean_config)).
Proof.
  refine (proj1 (newTextModel_index_list_members (Tensor := Node)
                   (Linear := string * Z) (RMSNorm := string)
                   (Embedding := string * Z) bad_config clean_config
                   eq_refl _ _)).
  - vm_compute. discriminate.
  - intros i Hi.
    change (In i [1; 1; 7] <-> In i [1]).
    change (0 <= i < 2) in Hi. simpl. lia.
Defined.

(** Hidden size 10 and 3 heads: the head dimension is 3, and 3 heads of
    dimension 3 fall one short of the hidden size. *)
Lemma newTextModel_headDim_witness :
  div64
    (hiddenSize (Opts (newTextModel (Tensor := Node) (Linear := string * Z)
                         (RMSNorm := string) (Embedding := string * Z)
                         bad_config)))
    (numHeads (Opts (newTextModel (Tensor := Node) (Linear := string * Z)
                       (RMSNorm := string) (Embedding := string * Z)
                       bad_config)))
  = Some 3
  /\ 3 * 3 = 10 - 1.
Proof.
  destruct (newTextModel_headDim (Tensor := Node) (Linear := string * Z)
              (RMSNorm := string) (Embedding := string * Z) bad_config)
    as (_ & _ & Hdiv & _ & Hmul & _).
  - change (0 <= 10 < 2 ^ 32). lia.
  - change (0 < 3 < 2 ^ 32). lia.
  - split; [exact Hdiv | exact Hmul].
Defined.

(** After a text-only call on an empty cache, slice 0 of the example
    decoder holds one pair and slice 1, of the cross-attention layer,
    none. *)
Lemma TextDecoder_Forward_spec_cache_slices_witness :
  exists h' s',
    TextDecoder_Forward decoder tt hidden positions (Some causal) None None
      (root 0) opts empty_state
    = Returned (h', s')
    /\ length (default [] (store s' !! [0%nat])) = 1%nat
    /\ length (default [] (store s' !! [1%nat])) = 0%nat.
Proof.
  destruct (TextDecoder_Forward decoder tt hidden positions (Some causal) None
              None (root 0) opts empty_state) as [[h' s'] |] eqn:E;
    [| vm_compute in E; discriminate E].
  exists h', s'. split; [reflexivity |].
  destruct (TextDecoder_Forward_spec_cache_slices (fun _ ts => NCacheView ts)
              decoder tt hidden h' positions (Some causal) None None (root 0)
              opts empty_state s' E) as [Hgrow _].
  split.
  - destruct (Hgrow 0%nat _ eq_refl) as (added & Heq & Hlen).
    change (SpecCache.slice (root 0) ++ [0%nat]) with [0%nat] in Heq.
    rewrite Heq. exact Hlen.
  - destruct (Hgrow 1%nat _ eq_refl) as (added & Heq & Hlen).
    change (SpecCache.slice (root 0) ++ [1%nat]) with [1%nat] in Heq.
    rewrite Heq. exact Hlen.
Defined.

(** The example model returns on a call with vision features; so its
    cross-attention layer at index 1 is loaded and its head count is not
    zero. *)
Lemma TextModel_Forward_Returned_implies_witness :
  exists logits s',
    TextModel_Forward model tt tokens positions (Some causal) (Some vision)
      None (root 0) empty_state
    = Returned (logits, s')
    /\ TextDecoderLayer_loaded (CrossAttentionDecoderLayer cross_layer) = true
    /\ numHeads (Opts model) <> 0.
Proof.
  destruct (TextModel_Forward model tt tokens positions (Some causal)
              (Some vision) None (root 0) empty_state)
    as [[logits s'] |] eqn:E; [| vm_compute in E; discriminate E].
  exists logits, s'. split; [reflexivity |].
  destruct (TextModel_Forward_Returned_implies model tt tokens positions
              (Some causal) (Some vision) None (root 0) empty_state s' logits E)
    as (_ & _ & _ & Hlayers).
  destruct (Hlayers 1%nat _ eq_refl eq_refl) as (Hl & Hn & _).
  split; [exact Hl | exact Hn].
Defined.

End FurtherRuns.
